(** * Shopping bill engine of [shopping_list.js]

    A shallow embedding of the bill computation of [shopping_list.js]:
    the generic map lookup with a default, the fold of the basket into a
    bill, the multi-buy pricing arithmetic and the grand total, and the
    text utilities that render prices and the stock table.  The rendering of
    the bill and the writes to the page are not modelled.

    Conventions of the embedding.
    - SKUs, quantities and prices are JavaScript numbers holding integers;
      they are modelled as [Z].  The result of a computation is a [number],
      which is either an integer or [NotFinite] (the values [Infinity],
      [-Infinity] and [NaN] taken together).
    - The arithmetic is given in two readings.  [num_add], [num_sub],
      [num_mul], [Math_floor_div] and the pricing functions built on them
      compute on the integers without rounding: they are the functions of
      the script as long as operands and results are below [2^53] in
      magnitude ([num_add_agrees] and the lemmas after it), and
      they are used for the structure of the bill and for the tables of the
      script, where that holds.  [Double] gives the same functions on
      binary64 numbers, with the rounding of the machine; statements about
      the value of a price or of a total for arbitrary tables are made
      there.
    - A JavaScript [Map] is modelled as the list of its entries in insertion
      order ([JsMap.t]); [get], [set] and [values] follow the behaviour of
      the built-in object.  Values stored in a map range over a Rocq type,
      so [undefined] is never a stored value.
    - [stockList] and [discountedSkus] are globals of the script.  The engine
      is defined in a section over both, and [Shop] holds the tables of the
      script. *)

From Stdlib Require Import ZArith List String Bool Permutation Lia.
From Stdlib Require Import DecimalString.
Import ListNotations.
Local Open Scope Z_scope.

(* ====================================================================== *)
(** ** JavaScript [Map] with number keys *)

Module JsMap.

(** Entries in insertion order; a key occurs at most once in a map built
    with [set] from [empty] (see [wf]). *)
Definition t (V : Type) : Type := list (Z * V).

(** [new Map()] *)
Definition empty {V : Type} : t V := [].

(** [m.get(k)]: [None] stands for [undefined]. *)
Fixpoint get {V : Type} (m : t V) (k : Z) : option V :=
  match m with
  | [] => None
  | (k', v) :: rest => if k' =? k then Some v else get rest k
  end.

(** [m.has(k)] *)
Definition has {V : Type} (m : t V) (k : Z) : bool :=
  match get m k with
  | Some _ => true
  | None => false
  end.

(** [m.set(k, v)]: the value of an existing key is replaced where the key
    stands, a new key is appended. *)
Fixpoint set {V : Type} (m : t V) (k : Z) (v : V) : t V :=
  match m with
  | [] => [(k, v)]
  | (k', v') :: rest =>
      if k' =? k then (k', v) :: rest else (k', v') :: set rest k v
  end.

(** [Array.from(m.keys())] and [Array.from(m.values())] *)
Definition keys {V : Type} (m : t V) : list Z := map fst m.
Definition values {V : Type} (m : t V) : list V := map snd m.

(** [new Map(entries)]: the entries are set one after the other. *)
Definition of_entries {V : Type} (entries : list (Z * V)) : t V :=
  fold_left (fun m e => set m (fst e) (snd e)) entries empty.

(** The invariant of every map of the program: no key occurs twice. *)
Definition wf {V : Type} (m : t V) : Prop := NoDup (keys m).

End JsMap.

(* ====================================================================== *)
(** ** Numbers produced by the pricing arithmetic *)

Inductive number : Type :=
| Num (z : Z)
| NotFinite.

(** [x + y], [x - y] and [x * y] without rounding: the result of the script
    when it is below [2^53] in magnitude ([Double.add], [Double.sub] and
    [Double.mul] give it in every case).  A non-finite operand gives a
    non-finite result ([Infinity * 0] and [Infinity - Infinity] are
    [NaN]). *)
Definition num_add (x y : number) : number :=
  match x, y with
  | Num a, Num b => Num (a + b)
  | _, _ => NotFinite
  end.

Definition num_sub (x y : number) : number :=
  match x, y with
  | Num a, Num b => Num (a - b)
  | _, _ => NotFinite
  end.

Definition num_mul (x y : number) : number :=
  match x, y with
  | Num a, Num b => Num (a * b)
  | _, _ => NotFinite
  end.

(** [Math.floor(a / b)] on integers, without rounding: the floor of the
    quotient, which is the result of the script for [0 <= a < 2^53] and
    [1 <= b < 2^53] ([Double.floor_div] gives it in every case), and
    [Infinity], [-Infinity] or [NaN] when [b] is [0]. *)
Definition Math_floor_div (a b : Z) : number :=
  if b =? 0 then NotFinite else Num (a / b).

(* ====================================================================== *)
(** ** Constructors of the script *)

Module Item.
Record t : Type := new { desc : string; unitPrice : Z }.
End Item.

Module Discount.
Record t : Type := new { qty : Z; amount : Z }.
End Discount.

Definition UNKNOWN_SKU_TXT : string := "Unknown SKU".
Definition UNKNOWN_SKU : Item.t := Item.new UNKNOWN_SKU_TXT 0.
Definition NO_DISCOUNT : Discount.t := Discount.new 1 0.

(* ====================================================================== *)
(** ** Pricing functions

    Without rounding; [Double] has them on binary64 numbers. *)

Definition calcDiscount (itemQty discountQty discountAmt : Z) : number :=
  num_mul (Math_floor_div itemQty discountQty) (Num discountAmt).

Definition calcAmount (itemQty unitPrice : Z) (discount : number) : number :=
  num_sub (Num (itemQty * unitPrice)) discount.

Definition calcPrice (qty unitPrice : Z) (discount : Discount.t) : number :=
  (fun disc => calcAmount qty unitPrice disc)
    (calcDiscount qty (Discount.qty discount) (Discount.amount discount)).

Module BillItem.
Record t : Type := new { qty : Z; item : Item.t; discount : Discount.t }.

(** [this.price]: a closure over the object, evaluated at each call on the
    fields the object has then. *)
Definition price (this : t) : number :=
  calcPrice (qty this) (Item.unitPrice (item this)) (discount this).

(** Assignment to the [qty] field of a bill item. *)
Definition with_qty (this : t) (q : Z) : t :=
  new q (item this) (discount this).
End BillItem.

(* ====================================================================== *)
(** ** Lookup with a default *)

Definition genericMapGet {V : Type}
    (someMap : JsMap.t V) (notThereValue : V) (theThing : Z) : V :=
  (fun v => match v with
            | None => notThereValue
            | Some v' => v'
            end)
    (JsMap.get someMap theThing).

(** Increment the quantity for an existing item on the bill. *)
Definition updateQty (bill : JsMap.t BillItem.t) (sku : Z) : Z :=
  (fun billItem => 1 + match billItem with
                       | None => 0
                       | Some b => BillItem.qty b
                       end)
    (JsMap.get bill sku).

(** [reduce] callback of [displayScreen] and the sum it computes. *)
Definition sumPrices (billArray : list BillItem.t) : number :=
  fold_left (fun acc item => num_add acc (BillItem.price item)) billArray (Num 0).

(* ====================================================================== *)
(** ** The engine, over the two global tables *)

Section Engine.

Variable stockList : JsMap.t Item.t.
Variable discountedSkus : JsMap.t Discount.t.

Definition readItem : Z -> Item.t := genericMapGet stockList UNKNOWN_SKU.
Definition readDiscount : Z -> Discount.t :=
  genericMapGet discountedSkus NO_DISCOUNT.

Definition addItemToBill (acc : JsMap.t BillItem.t) (sku : Z)
    : JsMap.t BillItem.t :=
  (fun newQty item discount =>
     if String.eqb (Item.desc item) UNKNOWN_SKU_TXT
     then acc
     else JsMap.set acc sku (BillItem.new newQty item discount))
    (updateQty acc sku)
    (readItem sku)
    (readDiscount sku).

(** [basket.reduce(addItemToBill, new Map())] *)
Definition billMap (basket : list Z) : JsMap.t BillItem.t :=
  fold_left addItemToBill basket JsMap.empty.

(** [Array.from(billMap.values())] *)
Definition billArray (basket : list Z) : list BillItem.t :=
  JsMap.values (billMap basket).

(** [billArray.reduce((acc, item) => acc + item.price(), 0)] *)
Definition total (basket : list Z) : number :=
  sumPrices (billArray basket).

End Engine.

(* ====================================================================== *)
(** ** The tables of the script *)

Module Shop.

Definition stockList : JsMap.t Item.t := JsMap.of_entries
  [ ( 670, Item.new "Apples (pack of 5)" 194)
  ; (5243, Item.new "Bananas (1kg)" 268)
  ; (3317, Item.new "Oranges (pack of 5)" 150)
  ; (5712, Item.new "Pineapple" 259)
  ; (8903, Item.new "Mango" 75)
  ; ( 643, Item.new "Potatoes (2.5kg)" 198)
  ; (  57, Item.new "Tomatoes (1kg)" 199)
  ; (  56, Item.new "Onions (pack of 4)" 83)
  ; (1094, Item.new "Lettuce" 49)
  ; (2275, Item.new "Rice (1kg)" 148)
  ; (6034, Item.new "Pasta (1kg)" 120)
  ; (5907, Item.new "Bread (800g loaf)" 145)
  ; (3111, Item.new "Pizza (350g)" 260)
  ; ( 554, Item.new "Beef Mince (500g)" 199)
  ; (1373, Item.new "Chicken Breast (pack of 2)" 300)
  ; (6564, Item.new "Salmon Fillets (pack of 2)" 323)
  ; (7102, Item.new "Pasta Sauce (500g jar)" 184)
  ; (5079, Item.new "Curry Sauce (500g jar)" 184)
  ; (6386, Item.new "Cheese (250g)" 174)
  ; ( 347, Item.new "Butter (250g)" 152)
  ; (1019, Item.new "Plain Yoghurt (500g)" 94)
  ; (9190, Item.new "Milk (568ml / 1 pint)" 68)
  ; (6487, Item.new "Milk (2.27L / 4 pints)" 219)
  ; (4705, Item.new "Fresh Orange Juice (1L)" 169)
  ; (3263, Item.new "Cola (2L)" 99)
  ; (6469, Item.new "Beer (pack of 4 bottles)" 400)
  ; (5671, Item.new "Red wine (70cl bottle)" 750)
  ; (4719, Item.new "Fish Fingers (500g)" 335)
  ; (5643, Item.new "Soap Powder" 500)
  ; (1234, Item.new "Dry Sherry, 1lt" 1010) ].

Definition basket : list Z :=
  [670; 3317; 643; 1234; 5907; 6034; 670; 1234; 5671; 7102; 7102; 1094;
   1373; 7102; 5671; 6469].

Definition discountedSkus : JsMap.t Discount.t := JsMap.of_entries
  [ (1234, Discount.new 2 250)
  ; (5671, Discount.new 2 125)
  ; (7102, Discount.new 3 50) ].

Definition readItem : Z -> Item.t := readItem stockList.
Definition readDiscount : Z -> Discount.t := readDiscount discountedSkus.
Definition addItemToBill := addItemToBill stockList discountedSkus.
Definition billMap := billMap stockList discountedSkus.
Definition billArray := billArray stockList discountedSkus.
Definition total := total stockList discountedSkus.

End Shop.

(* ====================================================================== *)
(** ** Notions used to state the properties *)

(** Number of occurrences of a SKU in a basket. *)
Definition occurrences (sku : Z) (basket : list Z) : Z :=
  Z.of_nat (count_occ Z.eq_dec basket sku).

(** The distinct elements of a list, each at the place of its first
    occurrence. *)
Fixpoint firstOccurrences (l : list Z) : list Z :=
  match l with
  | [] => []
  | x :: rest => x :: filter (fun y => negb (y =? x)) (firstOccurrences rest)
  end.

(** The entries of a bill for one SKU. *)
Definition linesFor (sku : Z) (bill : JsMap.t BillItem.t)
    : list (Z * BillItem.t) :=
  filter (fun e => fst e =? sku) bill.

(** Line amount of the pricing contract, on integers: quantity times unit
    price minus the discount earned by the whole multiples of the
    threshold. *)
Definition lineAmount (line : BillItem.t) : Z :=
  BillItem.qty line * Item.unitPrice (BillItem.item line)
  - BillItem.qty line / Discount.qty (BillItem.discount line)
    * Discount.amount (BillItem.discount line).

(** Sum of the derived prices of a sequence of lines, from the right. *)
Definition sumOfPrices (lines : list BillItem.t) : number :=
  fold_right (fun line acc => num_add (BillItem.price line) acc) (Num 0) lines.

(** The test of [addItemToBill] on the item found for a SKU. *)
Definition isKnown (stockList : JsMap.t Item.t) (sku : Z) : bool :=
  negb (String.eqb (Item.desc (readItem stockList sku)) UNKNOWN_SKU_TXT).

(** No entry of the catalog carries the marker text as its description. *)
Definition markerFree (stockList : JsMap.t Item.t) : bool :=
  forallb (fun e => negb (String.eqb (Item.desc (snd e)) UNKNOWN_SKU_TXT))
          stockList.

(* ====================================================================== *)
(** ** Integer accounts of a bill *)

Definition sumZ (l : list Z) : Z := fold_right Z.add 0 l.

(** Sum of the unit prices of the occurrences of a basket that pass the test
    of [addItemToBill]. *)
Definition listPrice (stockList : JsMap.t Item.t) (basket : list Z) : Z :=
  sumZ (map (fun s => Item.unitPrice (readItem stockList s))
            (filter (isKnown stockList) basket)).

(** Discount of a line on integers: the amount of the rule for each whole
    multiple of its threshold. *)
Definition lineDiscount (line : BillItem.t) : Z :=
  BillItem.qty line / Discount.qty (BillItem.discount line)
  * Discount.amount (BillItem.discount line).

(** Discount of [q] units of a SKU under the rule that [readDiscount]
    returns for it. *)
Definition earnedDiscount (discountedSkus : JsMap.t Discount.t) (s q : Z) : Z :=
  q / Discount.qty (readDiscount discountedSkus s)
  * Discount.amount (readDiscount discountedSkus s).

(* ====================================================================== *)
(** ** The arithmetic of the script on binary64 numbers

    A JavaScript number is an IEEE 754 binary64 value.  [+], [-] and [*]
    return the value nearest to the exact result, ties going to the even
    significand, and [Infinity] from [2^1024 - 2^970] on; [a / b] returns the
    value nearest to the exact quotient.  The functions of [Double] compute
    this on integers that a binary64 value holds; their results are again
    such integers, or [NotFinite].  The pricing functions of the script are
    given here a second time, on this arithmetic. *)

Module Double.

(** [2^e], and [1] for a negative [e]. *)
Definition pow2 (e : Z) : Z := 2 ^ Z.max 0 e.

(** The integer nearest to [n / d], the even one of two that are as near;
    [0 <= n] and [0 < d]. *)
Definition round_half_even (n d : Z) : Z :=
  let m := n / d in
  let r := n mod d in
  if (d <? 2 * r) || ((d =? 2 * r) && Z.odd m) then m + 1 else m.

(** The exponent [e] of the last bit of the significand for [a / b]:
    [2^52 <= (a / b) / 2^e < 2^53], and [-1074] at least; [0 < a] and
    [0 < b]. *)
Definition exponent (a b : Z) : Z :=
  let e0 := Z.log2 a - Z.log2 b - 52 in
  Z.max (-1074)
    (if 2 ^ 52 * (b * pow2 e0) <=? a * pow2 (- e0) then e0 else e0 - 1).

(** The binary64 value nearest to [a / b], as [(m, e)] for [m * 2^e];
    [0 <= a] and [0 < b]. *)
Definition nearest (a b : Z) : Z * Z :=
  if a =? 0 then (0, 0)
  else let e := exponent a b in
       (round_half_even (a * pow2 (- e)) (b * pow2 e), e).

(** The binary64 value nearest to the integer [z]. *)
Definition round (z : Z) : number :=
  let '(m, e) := nearest (Z.abs z) 1 in
  let v := m * pow2 e / pow2 (- e) in
  if 2 ^ 1024 <=? v then NotFinite else Num (Z.sgn z * v).

Definition add (x y : number) : number :=
  match x, y with
  | Num a, Num b => round (a + b)
  | _, _ => NotFinite
  end.

Definition sub (x y : number) : number :=
  match x, y with
  | Num a, Num b => round (a - b)
  | _, _ => NotFinite
  end.

Definition mul (x y : number) : number :=
  match x, y with
  | Num a, Num b => round (a * b)
  | _, _ => NotFinite
  end.

(** [Math.floor(a / b)]: the floor of the binary64 quotient. *)
Definition floor_div (a b : Z) : number :=
  if b =? 0 then NotFinite
  else let '(m, e) := nearest (Z.abs a) (Z.abs b) in
       Num (Z.sgn a * Z.sgn b * m * pow2 e / pow2 (- e)).

Definition calcDiscount (itemQty discountQty discountAmt : Z) : number :=
  mul (floor_div itemQty discountQty) (Num discountAmt).

Definition calcAmount (itemQty unitPrice : Z) (discount : number) : number :=
  sub (mul (Num itemQty) (Num unitPrice)) discount.

Definition calcPrice (qty unitPrice : Z) (discount : Discount.t) : number :=
  (fun disc => calcAmount qty unitPrice disc)
    (calcDiscount qty (Discount.qty discount) (Discount.amount discount)).

(** [this.price] of a bill item. *)
Definition price (this : BillItem.t) : number :=
  calcPrice (BillItem.qty this) (Item.unitPrice (BillItem.item this))
            (BillItem.discount this).

(** [billArray.reduce((acc, item) => acc + item.price(), 0)] *)
Definition sumPrices (billArray : list BillItem.t) : number :=
  fold_left (fun acc item => add acc (price item)) billArray (Num 0).

Definition total (stockList : JsMap.t Item.t)
    (discountedSkus : JsMap.t Discount.t) (basket : list Z) : number :=
  sumPrices (billArray stockList discountedSkus basket).

End Double.

(** An integer below [2^53] in magnitude: every such integer is a binary64
    value. *)
Definition safeb (z : Z) : bool := Z.abs z <? 2 ^ 53.

(** The fields of a line and the intermediate results of its price are
    below [2^53] in magnitude, with a quantity that is not negative and a
    threshold of at least [1]. *)
Definition lineSafeb (line : BillItem.t) : bool :=
  let q := BillItem.qty line in
  let u := Item.unitPrice (BillItem.item line) in
  let t := Discount.qty (BillItem.discount line) in
  let a := Discount.amount (BillItem.discount line) in
  (0 <=? q) && safeb q && (1 <=? t) && safeb t && safeb u && safeb a
  && safeb (q * u) && safeb (q / t * a) && safeb (lineAmount line).

(** Every line is within that range, and so is the sum of the magnitudes
    of the line amounts. *)
Definition billSafeb (lines : list BillItem.t) : bool :=
  forallb lineSafeb lines
  && safeb (sumZ (map (fun l => Z.abs (lineAmount l)) lines)).

(* ====================================================================== *)
(** ** HTML utility functions

    Text is modelled by [string]; [s1 + s2] on text is [s1 ++ s2].  The
    function [stockListAsHtml], which writes to the page, is modelled by the
    markup it builds; the page itself is not modelled. *)

Local Open Scope string_scope.

Definition GBP : string := "&pound;".
Definition CURRENCY : string := GBP.

(** [String(z)] for an integer [z]: its decimal digits, after a minus sign
    when it is negative. *)
Definition Number_toString (z : Z) : string :=
  NilZero.string_of_int (Z.to_int z).

(** [String(p / 100)] for an integer [p] of magnitude below [10^15]: the
    quotient is the number with the digits of [p] and two decimals, and the
    conversion writes the shortest decimal text that denotes it, that is
    without the trailing zeros of the fraction. *)
Definition hundredths_toString (p : Z) : string :=
  let a := Z.abs p in
  (if (p <? 0)%Z then "-" else "")
  ++ Number_toString (a / 100)
  ++ (if (a mod 100 =? 0)%Z then ""
      else "." ++ Number_toString (a mod 100 / 10)
               ++ (if (a mod 10 =? 0)%Z then "" else Number_toString (a mod 10))).

Definition isEmpty (tagName : string) : bool :=
  existsb (String.eqb tagName)
    [ "area";  "base";    "basefont"; "br";
      "col";   "frame";   "hr";       "img";
      "input"; "isindex"; "link";     "meta";
      "param"; "command"; "keygen";   "source" ].

Definition argsToArgStr (acc : string) (arg : string * string) : string :=
  acc ++ " " ++ fst arg ++ "=" ++ snd arg.

(** [args] is [None] when the argument is [undefined]. *)
Definition makeHtmlElement (tagName : string)
    (args : option (list (string * string))) (content : string) : string :=
  (fun argList =>
     "<" ++ tagName ++ argList ++ ">" ++
     content ++
     (if isEmpty tagName then "" else "</" ++ tagName ++ ">"))
    (match args with
     | Some ((_ :: _) as l) => fold_left argsToArgStr l ""
     | _ => ""
     end).

(** [p] is an integer; [p % n] is the remainder of the division that
    truncates, [Z.rem]. *)
Definition zeroPadPrice (p : Z) : string :=
  CURRENCY ++ hundredths_toString p
  ++ (if (Z.rem p 100 =? 0)%Z then ".00"
      else if (Z.rem p 10 =? 0)%Z then "0" else "").

Definition makeTableCell : string -> string := makeHtmlElement "td" None.
Definition makeTableCellRight : string -> string :=
  makeHtmlElement "td" (Some [("class", "right")]).
Definition makeTableRow : string -> string := makeHtmlElement "tr" None.
Definition makeTable : string -> string := makeHtmlElement "table" None.


Definition stockItemAsHtmlTableRow (acc : string) (val : Item.t) : string :=
  acc ++
  makeTableRow (makeTableCell (Item.desc val) ++
                makeTableCellRight (zeroPadPrice (Item.unitPrice val))).

(** The markup that [stockListAsHtml] assigns to the element and returns. *)
Definition stockListAsHtml (sl : JsMap.t Item.t) : string :=
  makeTable (fold_left stockItemAsHtmlTableRow (JsMap.values sl) "").

Local Close Scope string_scope.

(* ====================================================================== *)
(** ** Facts about [JsMap] *)

Module JsMapFacts.
Import JsMap.

Section WithValues.
Context {V : Type}.
Implicit Types (m : t V) (k : Z) (v : V).

Lemma get_set m k v k' :
  get (set m k v) k' = if k =? k' then Some v else get m k'.
Proof.
  induction m as [|[k0 v0] rest IH]; simpl.
  - destruct (k =? k'); reflexivity.
  - destruct (k0 =? k) eqn:E0; simpl.
    + apply Z.eqb_eq in E0; subst k0.
      destruct (k =? k'); reflexivity.
    + rewrite IH. destruct (k0 =? k') eqn:E1; [|reflexivity].
      apply Z.eqb_eq in E1; subst k0. rewrite Z.eqb_sym, E0. reflexivity.
Qed.

Lemma has_in_keys m k : has m k = true <-> In k (keys m).
Proof.
  unfold has. induction m as [|[k0 v0] rest IH]; simpl.
  - split; [discriminate | tauto].
  - destruct (k0 =? k) eqn:E.
    + apply Z.eqb_eq in E. tauto.
    + apply Z.eqb_neq in E. rewrite IH. tauto.
Qed.

Lemma has_false_not_in m k : has m k = false <-> ~ In k (keys m).
Proof.
  rewrite <- has_in_keys. destruct (has m k); split; congruence.
Qed.

Lemma get_none_not_in m k : get m k = None <-> ~ In k (keys m).
Proof.
  rewrite <- has_false_not_in. unfold has.
  destruct (get m k); split; congruence.
Qed.

Lemma get_some_in m k v : get m k = Some v -> In (k, v) m.
Proof.
  induction m as [|[k0 v0] rest IH]; simpl; [discriminate|].
  destruct (k0 =? k) eqn:E.
  - apply Z.eqb_eq in E. intros [= ->]. subst. now left.
  - intros H. right. now apply IH.
Qed.

Lemma in_get_wf m k v : wf m -> In (k, v) m -> get m k = Some v.
Proof.
  unfold wf. induction m as [|[k0 v0] rest IH]; simpl; [tauto|].
  intros Hnd [Heq | Hin].
  - injection Heq as -> ->. now rewrite Z.eqb_refl.
  - inversion Hnd as [|? ? Hnotin Hrest]; subst.
    destruct (k0 =? k) eqn:E.
    + apply Z.eqb_eq in E; subst k0. exfalso. apply Hnotin.
      change k with (fst (k, v)). now apply in_map.
    + now apply IH.
Qed.

Lemma keys_set m k v :
  keys (set m k v) = if has m k then keys m else keys m ++ [k].
Proof.
  unfold has. induction m as [|[k0 v0] rest IH]; simpl; [reflexivity|].
  destruct (k0 =? k) eqn:E; simpl; [reflexivity|].
  fold (keys (set rest k v)). rewrite IH.
  destruct (get rest k); reflexivity.
Qed.

Lemma wf_empty : wf (@empty V).
Proof. constructor. Qed.

Lemma wf_set m k v : wf m -> wf (set m k v).
Proof.
  unfold wf. intros Hnd. rewrite keys_set.
  destruct (has m k) eqn:E; [assumption|].
  apply has_false_not_in in E.
  apply NoDup_app; [assumption | repeat constructor; simpl; tauto |].
  intros x Hx [<- | []]. contradiction.
Qed.

Lemma wf_of_entries (entries : list (Z * V)) : wf (of_entries entries).
Proof.
  unfold of_entries. generalize (@wf_empty). generalize (@empty V).
  induction entries as [|e rest IH]; simpl; intros m Hm; [assumption|].
  apply IH. now apply wf_set.
Qed.

(** In a well-formed map the entries of a key are the one that [get]
    finds. *)
Lemma filter_key_wf m k v :
  wf m -> get m k = Some v -> filter (fun e => fst e =? k) m = [(k, v)].
Proof.
  unfold wf. induction m as [|[k0 v0] rest IH]; simpl; [discriminate|].
  intros Hnd. inversion Hnd as [|? ? Hnotin Hrest]; subst.
  destruct (k0 =? k) eqn:E.
  - apply Z.eqb_eq in E; subst k0. intros [= ->]. f_equal.
    apply get_none_not_in in Hnotin. clear -Hnotin.
    induction rest as [|[k1 v1] rest IH]; simpl in *; [reflexivity|].
    destruct (k1 =? k); [discriminate | now apply IH].
  - intros Hget. now apply IH.
Qed.

End WithValues.
End JsMapFacts.

(* ====================================================================== *)
(** ** Facts about the pricing arithmetic *)

Lemma num_add_comm x y : num_add x y = num_add y x.
Proof. destruct x, y; simpl; try reflexivity. f_equal. lia. Qed.

Lemma num_add_assoc x y z : num_add x (num_add y z) = num_add (num_add x y) z.
Proof. destruct x, y, z; simpl; try reflexivity. f_equal. lia. Qed.

Lemma num_add_0_l x : num_add (Num 0) x = x.
Proof. destruct x; reflexivity. Qed.

Lemma price_finite q d u t a :
  t <> 0 ->
  BillItem.price (BillItem.new q (Item.new d u) (Discount.new t a))
  = Num (q * u - q / t * a).
Proof.
  intros Ht. unfold BillItem.price, calcPrice, calcAmount, calcDiscount,
    Math_floor_div. simpl.
  apply Z.eqb_neq in Ht. rewrite Ht. reflexivity.
Qed.

Lemma price_lineAmount line :
  Discount.qty (BillItem.discount line) <> 0 ->
  BillItem.price line = Num (lineAmount line).
Proof.
  destruct line as [q [d u] [t a]]. simpl. apply price_finite.
Qed.

Lemma fold_left_num_add lines acc :
  fold_left (fun acc item => num_add acc (BillItem.price item)) lines acc
  = num_add acc (sumOfPrices lines).
Proof.
  revert acc. induction lines as [|l rest IH]; intros acc; simpl.
  - destruct acc; simpl; [f_equal; lia | reflexivity].
  - rewrite IH. apply eq_sym, num_add_assoc.
Qed.

Lemma sumPrices_sumOfPrices lines : sumPrices lines = sumOfPrices lines.
Proof. unfold sumPrices. rewrite fold_left_num_add. apply num_add_0_l. Qed.

Lemma sumOfPrices_perm lines lines' :
  Permutation lines lines' -> sumOfPrices lines = sumOfPrices lines'.
Proof.
  induction 1 as [| l r r' _ IH | l1 l2 r | r1 r2 r3 _ IH1 _ IH2]; simpl.
  - reflexivity.
  - now rewrite IH.
  - rewrite !num_add_assoc. f_equal. apply num_add_comm.
  - congruence.
Qed.

Lemma sumOfPrices_finite lines :
  Forall (fun l => Discount.qty (BillItem.discount l) <> 0) lines ->
  sumOfPrices lines = Num (fold_right Z.add 0 (map lineAmount lines)).
Proof.
  induction 1 as [|l rest Hl _ IH]; simpl; [reflexivity|].
  rewrite IH, (price_lineAmount l Hl). reflexivity.
Qed.

(* ====================================================================== *)
(** ** Facts about the lookup and the fold of the basket *)

Lemma genericMapGet_values {V : Type} (P : V -> Prop) (m : JsMap.t V) fb k :
  Forall P (JsMap.values m) -> P fb -> P (genericMapGet m fb k).
Proof.
  intros Hall Hfb. unfold genericMapGet.
  destruct (JsMap.get m k) as [v|] eqn:E; [|assumption].
  apply JsMapFacts.get_some_in in E.
  rewrite Forall_forall in Hall. apply Hall.
  change v with (snd (k, v)). now apply in_map.
Qed.

Lemma firstOccurrences_in l x : In x (firstOccurrences l) <-> In x l.
Proof.
  induction l as [|y rest IH]; simpl; [tauto|].
  rewrite filter_In, IH, negb_true_iff, Z.eqb_neq.
  destruct (Z.eq_dec y x); [tauto|]. intuition congruence.
Qed.

Lemma firstOccurrences_nodup l : NoDup (firstOccurrences l).
Proof.
  induction l as [|y rest IH]; simpl; constructor.
  - rewrite filter_In, Z.eqb_refl. simpl. intros [_ [=]].
  - now apply NoDup_filter.
Qed.

Lemma occurrences_pos s basket : 0 < occurrences s basket <-> In s basket.
Proof.
  unfold occurrences. rewrite (count_occ_In Z.eq_dec). lia.
Qed.

Lemma filter_twice {A : Type} (p q : A -> bool) l :
  filter p (filter q l) = filter (fun x => q x && p x) l.
Proof.
  induction l as [|x rest IH]; simpl; [reflexivity|].
  destruct (q x); simpl; [destruct (p x)|]; now rewrite IH.
Qed.

Lemma filter_all {A : Type} (p : A -> bool) l :
  (forall x, p x = true) -> filter p l = l.
Proof.
  intros Hp. induction l as [|x rest IH]; simpl; [reflexivity|].
  now rewrite Hp, IH.
Qed.

Section EngineFacts.

Variable stockList : JsMap.t Item.t.
Variable discountedSkus : JsMap.t Discount.t.

Local Abbreviation item_of := (readItem stockList).
Local Abbreviation discount_of := (readDiscount discountedSkus).
Local Abbreviation add := (addItemToBill stockList discountedSkus).
Local Abbreviation bill_of := (billMap stockList discountedSkus).
Local Abbreviation known := (isKnown stockList).

Lemma addItemToBill_unknown acc sku :
  known sku = false -> add acc sku = acc.
Proof.
  unfold isKnown, addItemToBill. intros H.
  apply negb_false_iff in H. now rewrite H.
Qed.

Lemma addItemToBill_known acc sku :
  known sku = true ->
  add acc sku
  = JsMap.set acc sku
      (BillItem.new (updateQty acc sku) (item_of sku) (discount_of sku)).
Proof.
  unfold isKnown, addItemToBill. intros H.
  apply negb_true_iff in H. now rewrite H.
Qed.

Lemma isKnown_has sku : known sku = true -> JsMap.has stockList sku = true.
Proof.
  unfold isKnown, readItem, genericMapGet, JsMap.has.
  destruct (JsMap.get stockList sku); [reflexivity|]. simpl. discriminate.
Qed.

Lemma has_false_unknown sku :
  JsMap.has stockList sku = false -> known sku = false.
Proof.
  intros H. destruct (known sku) eqn:E; [|reflexivity].
  apply isKnown_has in E. congruence.
Qed.

Lemma markerFree_isKnown sku :
  markerFree stockList = true -> known sku = JsMap.has stockList sku.
Proof.
  intros Hfree. destruct (JsMap.has stockList sku) eqn:Hhas.
  - unfold isKnown, readItem, genericMapGet.
    unfold JsMap.has in Hhas.
    destruct (JsMap.get stockList sku) as [it|] eqn:E; [|discriminate].
    apply JsMapFacts.get_some_in in E.
    unfold markerFree in Hfree. rewrite forallb_forall in Hfree.
    apply (Hfree _ E).
  - now apply has_false_unknown.
Qed.

Lemma marked_unknown sku it :
  JsMap.get stockList sku = Some it ->
  Item.desc it = UNKNOWN_SKU_TXT ->
  known sku = false.
Proof.
  intros Hget Hdesc.
  unfold isKnown, readItem, genericMapGet.
  rewrite Hget, Hdesc. reflexivity.
Qed.

(** The line that the fold leaves for a SKU. *)
Lemma get_fold basket : forall acc s,
  JsMap.get (fold_left add basket acc) s =
  if known s && negb (count_occ Z.eq_dec basket s =? 0)%nat
  then Some (BillItem.new
               (updateQty acc s - 1 + Z.of_nat (count_occ Z.eq_dec basket s))
               (item_of s) (discount_of s))
  else JsMap.get acc s.
Proof.
  induction basket as [|x rest IH]; intros acc s; simpl.
  - now rewrite andb_false_r.
  - rewrite IH. destruct (known x) eqn:Kx.
    + rewrite (addItemToBill_known _ _ Kx).
      destruct (Z.eq_dec x s) as [->|Hne].
      * rewrite Kx. simpl.
        unfold updateQty at 1. rewrite !JsMapFacts.get_set, Z.eqb_refl.
        simpl BillItem.qty.
        destruct (count_occ Z.eq_dec rest s) as [|n]; simpl negb; cbv iota;
          do 2 f_equal; lia.
      * unfold updateQty at 1. rewrite !JsMapFacts.get_set.
        apply Z.eqb_neq in Hne. rewrite Hne. reflexivity.
    + rewrite (addItemToBill_unknown _ _ Kx).
      destruct (Z.eq_dec x s) as [->|Hne]; [|reflexivity].
      rewrite Kx. reflexivity.
Qed.

Lemma get_billMap basket s :
  JsMap.get (bill_of basket) s =
  if known s && (0 <? occurrences s basket)
  then Some (BillItem.new (occurrences s basket) (item_of s) (discount_of s))
  else None.
Proof.
  unfold billMap, occurrences. rewrite get_fold.
  destruct (count_occ Z.eq_dec basket s) as [|n]; [now rewrite !andb_false_r|].
  replace (0 <? Z.of_nat (S n)) with true by (symmetry; apply Z.ltb_lt; lia).
  simpl negb. destruct (known s); reflexivity.
Qed.

Lemma wf_fold basket : forall acc,
  JsMap.wf acc -> JsMap.wf (fold_left add basket acc).
Proof.
  induction basket as [|x rest IH]; intros acc Hacc; simpl; [assumption|].
  apply IH. destruct (known x) eqn:Kx.
  - rewrite (addItemToBill_known _ _ Kx). now apply JsMapFacts.wf_set.
  - now rewrite (addItemToBill_unknown _ _ Kx).
Qed.

Lemma wf_billMap basket : JsMap.wf (bill_of basket).
Proof. apply wf_fold, JsMapFacts.wf_empty. Qed.

(** Steps that leave the accumulator unchanged can be removed from the
    basket. *)
Lemma fold_filter (keep : Z -> bool) basket :
  (forall s, keep s = false -> known s = false) ->
  forall acc,
    fold_left add basket acc
    = fold_left add (filter keep basket) acc.
Proof.
  intros Hkeep. induction basket as [|x rest IH]; intros acc; simpl;
    [reflexivity|].
  destruct (keep x) eqn:E; simpl.
  - apply IH.
  - rewrite (addItemToBill_unknown _ _ (Hkeep _ E)). apply IH.
Qed.

(** The keys of the folded bill: those of the accumulator, then the new
    known SKUs in the order of their first occurrence. *)
Lemma keys_fold basket : forall acc,
  JsMap.keys (fold_left add basket acc)
  = JsMap.keys acc
    ++ filter (fun s => negb (JsMap.has acc s))
              (firstOccurrences (filter known basket)).
Proof.
  induction basket as [|x rest IH]; intros acc; simpl.
  - now rewrite app_nil_r.
  - destruct (known x) eqn:Kx.
    + rewrite IH, (addItemToBill_known _ _ Kx), JsMapFacts.keys_set. simpl.
      rewrite filter_twice.
      set (line := BillItem.new _ _ _).
      assert (Hext : forall y,
                 negb (JsMap.has (JsMap.set acc x line) y)
                 = negb (y =? x) && negb (JsMap.has acc y)).
      { intros y. unfold JsMap.has. rewrite JsMapFacts.get_set, (Z.eqb_sym x y).
        destruct (y =? x); reflexivity. }
      rewrite (filter_ext _ _ Hext).
      destruct (JsMap.has acc x); simpl; [reflexivity|].
      now rewrite <- app_assoc.
    + rewrite (addItemToBill_unknown _ _ Kx). apply IH.
Qed.

Lemma keys_billMap basket :
  JsMap.keys (bill_of basket) = firstOccurrences (filter known basket).
Proof.
  unfold billMap. rewrite keys_fold. simpl. now apply filter_all.
Qed.

Lemma linesFor_billMap basket s :
  known s = true -> In s basket ->
  linesFor s (bill_of basket)
  = [(s, BillItem.new (occurrences s basket) (item_of s) (discount_of s))].
Proof.
  intros Hk Hin. apply JsMapFacts.filter_key_wf; [apply wf_billMap|].
  rewrite get_billMap, Hk. apply occurrences_pos, Z.ltb_lt in Hin.
  now rewrite Hin.
Qed.

Lemma key_in_basket basket s :
  In s (JsMap.keys (bill_of basket)) -> known s = true /\ In s basket.
Proof.
  rewrite keys_billMap, firstOccurrences_in, filter_In. tauto.
Qed.

(** Every entry of the bill holds what the two lookups return for its
    key. *)
Lemma entry_billMap basket s line :
  In (s, line) (bill_of basket) ->
  line = BillItem.new (occurrences s basket) (item_of s) (discount_of s).
Proof.
  intros Hin. apply (JsMapFacts.in_get_wf _ _ _ (wf_billMap basket)) in Hin.
  rewrite get_billMap in Hin.
  destruct (known s && (0 <? occurrences s basket)); congruence.
Qed.

Lemma get_billMap_perm b1 b2 s :
  Permutation b1 b2 -> JsMap.get (bill_of b1) s = JsMap.get (bill_of b2) s.
Proof.
  intros Hp. rewrite !get_billMap. unfold occurrences.
  now rewrite (proj1 (Permutation_count_occ Z.eq_dec b1 b2) Hp s).
Qed.

Lemma billMap_perm b1 b2 :
  Permutation b1 b2 -> Permutation (bill_of b1) (bill_of b2).
Proof.
  intros Hp.
  assert (Hnd : forall b, NoDup (bill_of b)).
  { intros b. apply (NoDup_map_inv fst), wf_billMap. }
  apply NoDup_Permutation; [apply Hnd | apply Hnd |].
  intros [k v]. split; intros Hin.
  - apply JsMapFacts.get_some_in. rewrite <- (get_billMap_perm _ _ k Hp).
    now apply JsMapFacts.in_get_wf; [apply wf_billMap|].
  - apply JsMapFacts.get_some_in. rewrite (get_billMap_perm _ _ k Hp).
    now apply JsMapFacts.in_get_wf; [apply wf_billMap|].
Qed.

End EngineFacts.

(** The catalog of the script has no entry described by the marker text, so
    the known SKUs are those of the catalog. *)
Lemma Shop_markerFree : markerFree Shop.stockList = true.
Proof. vm_compute. reflexivity. Qed.

Lemma Shop_isKnown sku :
  isKnown Shop.stockList sku = JsMap.has Shop.stockList sku.
Proof. apply markerFree_isKnown, Shop_markerFree. Qed.

Lemma Shop_discount_qty sku : 1 <= Discount.qty (Shop.readDiscount sku).
Proof.
  unfold Shop.readDiscount, readDiscount.
  apply (genericMapGet_values (fun d => 1 <= Discount.qty d)).
  - vm_compute. repeat constructor; discriminate.
  - simpl. lia.
Qed.

(* ====================================================================== *)
(** ** The bill of the script's own basket *)

Example shop_bill :
  map (fun e => (fst e, BillItem.qty (snd e), BillItem.price (snd e)))
      (Shop.billMap Shop.basket)
  = [ (670, 2, Num 388); (3317, 1, Num 150); (643, 1, Num 198);
      (1234, 2, Num 1770); (5907, 1, Num 145); (6034, 1, Num 120);
      (5671, 2, Num 1375); (7102, 3, Num 502); (1094, 1, Num 49);
      (1373, 1, Num 300); (6469, 1, Num 400) ].
Proof. vm_compute. reflexivity. Qed.

Example shop_total : Shop.total Shop.basket = Num 5397.
Proof. vm_compute. reflexivity. Qed.

Example firstOccurrences_example :
  firstOccurrences [670; 3317; 670; 1234; 3317; 670] = [670; 3317; 1234].
Proof. reflexivity. Qed.

Example division_by_zero_threshold : calcDiscount 3 0 250 = NotFinite.
Proof. reflexivity. Qed.

(* ====================================================================== *)
(** ** Aggregation *)

(** C1.  For every basket and every SKU [s] of the stock catalog of the
    script: when [s] occurs in the basket, the bill folded from the basket
    with [addItemToBill] from the empty map has exactly one entry for [s],
    and its quantity is the number of occurrences of [s] in the basket (its
    item and discount are the ones the two lookups return); and the bill has
    no entry for a SKU that does not occur in the basket. *)
Theorem bill_quantity_is_occurrences (basket : list Z) (s : Z) :
  JsMap.has Shop.stockList s = true ->
  (In s basket ->
   linesFor s (Shop.billMap basket)
   = [(s, BillItem.new (occurrences s basket)
                       (Shop.readItem s) (Shop.readDiscount s))])
  /\ (forall s', ~ In s' basket -> ~ In s' (JsMap.keys (Shop.billMap basket))).
Proof.
  intros Hcat. split.
  - intros Hin. apply linesFor_billMap; [|assumption].
    now rewrite Shop_isKnown.
  - intros s' Hnot Hkey. apply key_in_basket in Hkey. tauto.
Qed.

Lemma bill_quantity_is_occurrences_witness :
  linesFor 670 (Shop.billMap [670; 1234; 670])
  = [(670, BillItem.new 2 (Item.new "Apples (pack of 5)" 194) NO_DISCOUNT)]
  /\ ~ In 3317 (JsMap.keys (Shop.billMap [670; 1234; 670])).
Proof.
  destruct (bill_quantity_is_occurrences [670; 1234; 670] 670 eq_refl)
    as [Hline Hnone].
  split.
  - apply Hline. simpl. left. reflexivity.
  - apply Hnone. simpl. intros [H | [H | [H | []]]]; discriminate H.
Defined.

(** C2.  For every catalog and basket: the bill and the total of the basket
    are those of the basket without the SKUs that the catalog lacks; such a
    SKU has no entry in the bill, and the step of the fold on it returns the
    accumulator it was given. *)
Theorem unknown_skus_are_dropped
    (stockList : JsMap.t Item.t) (discountedSkus : JsMap.t Discount.t)
    (basket : list Z) :
  billMap stockList discountedSkus basket
  = billMap stockList discountedSkus (filter (JsMap.has stockList) basket)
  /\ total stockList discountedSkus basket
     = total stockList discountedSkus (filter (JsMap.has stockList) basket)
  /\ (forall s, JsMap.has stockList s = false ->
        ~ In s (JsMap.keys (billMap stockList discountedSkus basket))
        /\ forall acc, addItemToBill stockList discountedSkus acc s = acc).
Proof.
  assert (Hbill : billMap stockList discountedSkus basket
                  = billMap stockList discountedSkus
                      (filter (JsMap.has stockList) basket)).
  { unfold billMap. apply fold_filter. apply has_false_unknown. }
  split; [exact Hbill | split].
  - unfold total, billArray. now rewrite <- Hbill.
  - intros s Hs. apply (has_false_unknown stockList) in Hs. split.
    + intros Hkey. apply key_in_basket in Hkey. destruct Hkey; congruence.
    + intros acc. now apply addItemToBill_unknown.
Qed.

Lemma unknown_skus_are_dropped_witness :
  Shop.billMap [9999; 670; 9999] = Shop.billMap [670]
  /\ Shop.total [9999; 670; 9999] = Num 194
  /\ ~ In 9999 (JsMap.keys (Shop.billMap [9999; 670; 9999]))
  /\ Shop.addItemToBill (Shop.billMap [670]) 9999 = Shop.billMap [670].
Proof.
  destruct (unknown_skus_are_dropped Shop.stockList Shop.discountedSkus
              [9999; 670; 9999]) as [Hbill [Htotal Hdrop]].
  destruct (Hdrop 9999 eq_refl) as [Hkey Hstep].
  split; [exact Hbill | split; [exact Htotal | split]].
  - exact Hkey.
  - apply Hstep.
Defined.

(** C7.  For every catalog and discount table, and every two baskets that
    are permutations of each other: the two bills hold the same line for
    every SKU, hence the same quantity and the same price, computed with or
    without rounding; and the entries of one bill are a permutation of the
    entries of the other. *)
Theorem bill_invariant_under_permutation
    (stockList : JsMap.t Item.t) (discountedSkus : JsMap.t Discount.t)
    (basket basket' : list Z) :
  Permutation basket basket' ->
  (forall s,
     JsMap.get (billMap stockList discountedSkus basket) s
     = JsMap.get (billMap stockList discountedSkus basket') s)
  /\ (forall s,
        option_map BillItem.qty
                   (JsMap.get (billMap stockList discountedSkus basket) s)
        = option_map BillItem.qty
                     (JsMap.get (billMap stockList discountedSkus basket') s)
        /\ option_map Double.price
                      (JsMap.get (billMap stockList discountedSkus basket) s)
           = option_map Double.price
                        (JsMap.get (billMap stockList discountedSkus basket') s)
        /\ option_map BillItem.price
                      (JsMap.get (billMap stockList discountedSkus basket) s)
           = option_map BillItem.price
                        (JsMap.get (billMap stockList discountedSkus basket') s))
  /\ Permutation (billMap stockList discountedSkus basket)
                 (billMap stockList discountedSkus basket').
Proof.
  intros Hp. split; [|split].
  - intros s. now apply get_billMap_perm.
  - intros s.
    rewrite (get_billMap_perm stockList discountedSkus basket basket' s Hp).
    repeat split.
  - now apply billMap_perm.
Qed.

Lemma bill_invariant_under_permutation_witness :
  JsMap.get (Shop.billMap [1234; 670; 1234]) 1234
  = JsMap.get (Shop.billMap [670; 1234; 1234]) 1234
  /\ option_map Double.price (JsMap.get (Shop.billMap [1234; 670; 1234]) 1234)
     = Some (Num 1770)
  /\ option_map Double.price (JsMap.get (Shop.billMap [670; 1234; 1234]) 1234)
     = Some (Num 1770)
  /\ JsMap.keys (Shop.billMap [1234; 670; 1234]) = [1234; 670]
  /\ JsMap.keys (Shop.billMap [670; 1234; 1234]) = [670; 1234].
Proof.
  destruct (bill_invariant_under_permutation Shop.stockList Shop.discountedSkus
              [1234; 670; 1234] [670; 1234; 1234] (perm_swap 670 1234 [1234]))
    as [Hget [Hprice _]].
  destruct (Hprice 1234) as [_ [Hdouble _]].
  split; [apply Hget | split; [reflexivity | split]].
  - unfold Shop.billMap. rewrite <- Hdouble. reflexivity.
  - split; reflexivity.
Defined.

(** C9.  For every basket, the keys of the bill, in iteration order, are the
    distinct SKUs of the basket that the catalog of the script has, each at
    the place of its first occurrence; no key occurs twice; and a step of the
    fold on a SKU that the bill already has leaves the order of the keys
    unchanged. *)
Theorem bill_keys_in_first_occurrence_order (basket : list Z) :
  JsMap.keys (Shop.billMap basket)
  = firstOccurrences (filter (JsMap.has Shop.stockList) basket)
  /\ NoDup (JsMap.keys (Shop.billMap basket))
  /\ (forall acc sku,
        JsMap.has acc sku = true ->
        JsMap.keys (Shop.addItemToBill acc sku) = JsMap.keys acc).
Proof.
  split; [|split].
  - unfold Shop.billMap. rewrite keys_billMap. f_equal.
    apply filter_ext, Shop_isKnown.
  - apply wf_billMap.
  - intros acc sku Hhas. unfold Shop.addItemToBill.
    destruct (isKnown Shop.stockList sku) eqn:K.
    + rewrite (addItemToBill_known _ _ _ _ K), JsMapFacts.keys_set.
      now rewrite Hhas.
    + now rewrite (addItemToBill_unknown _ _ _ _ K).
Qed.

Lemma bill_keys_in_first_occurrence_order_witness :
  JsMap.keys (Shop.billMap [3317; 9999; 670; 3317; 1234; 670])
  = [3317; 670; 1234]
  /\ JsMap.keys (Shop.addItemToBill (Shop.billMap [3317; 670]) 3317)
     = [3317; 670].
Proof.
  destruct (bill_keys_in_first_occurrence_order
              [3317; 9999; 670; 3317; 1234; 670]) as [Hkeys [_ Hstay]].
  split.
  - exact Hkeys.
  - apply (Hstay (Shop.billMap [3317; 670]) 3317). reflexivity.
Defined.

(** C10.  For every catalog and every SKU [s] whose catalog entry has the
    description ["Unknown SKU"], whatever the other fields of the entry: a
    step of the fold on [s] returns the accumulator it was given, and for
    every basket the bill has no entry for [s] and is the bill of the basket
    without [s]. *)
Theorem marker_description_is_dropped
    (stockList : JsMap.t Item.t) (discountedSkus : JsMap.t Discount.t)
    (s : Z) (it : Item.t) :
  JsMap.get stockList s = Some it ->
  Item.desc it = UNKNOWN_SKU_TXT ->
  (forall acc, addItemToBill stockList discountedSkus acc s = acc)
  /\ (forall basket,
        ~ In s (JsMap.keys (billMap stockList discountedSkus basket))
        /\ billMap stockList discountedSkus basket
           = billMap stockList discountedSkus
               (filter (fun x => negb (x =? s)) basket)).
Proof.
  intros Hget Hdesc.
  pose proof (marked_unknown stockList s it Hget Hdesc) as Hunk.
  split; [|intros basket; split].
  - intros acc. now apply addItemToBill_unknown.
  - intros Hkey. apply key_in_basket in Hkey. destruct Hkey; congruence.
  - unfold billMap. apply fold_filter. intros x Hx.
    apply negb_false_iff, Z.eqb_eq in Hx. now subst x.
Qed.

Lemma marker_description_is_dropped_witness :
  Item.new "Unknown SKU" 199 <> UNKNOWN_SKU
  /\ JsMap.has [(42, Item.new "Unknown SKU" 199); (670, Item.new "Apples" 194)]
               42 = true
  /\ billMap [(42, Item.new "Unknown SKU" 199); (670, Item.new "Apples" 194)]
             [] [42; 670; 42]
     = billMap [(42, Item.new "Unknown SKU" 199); (670, Item.new "Apples" 194)]
               [] [670].
Proof.
  destruct (marker_description_is_dropped
              [(42, Item.new "Unknown SKU" 199); (670, Item.new "Apples" 194)]
              [] 42 (Item.new "Unknown SKU" 199) eq_refl eq_refl)
    as [_ Hbill].
  split; [discriminate | split; [reflexivity|]].
  exact (proj2 (Hbill [42; 670; 42])).
Defined.

(* ====================================================================== *)
(** ** Lookup *)

(** C6.  For every map, fallback value and key: the lookup returns the value
    that the map holds for the key when the map has the key, and the fallback
    value itself when the map does not have the key; in terms of the entries
    of the map, it returns the value of the entry for the key, and the
    fallback value when no entry has the key.  The lookup is a total
    function: it returns a value in both cases. *)
Theorem genericMapGet_value_or_fallback {V : Type}
    (someMap : JsMap.t V) (notThereValue : V) (theThing : Z) :
  (forall v, JsMap.get someMap theThing = Some v ->
             genericMapGet someMap notThereValue theThing = v)
  /\ (JsMap.has someMap theThing = false ->
      genericMapGet someMap notThereValue theThing = notThereValue)
  /\ (forall v, JsMap.wf someMap -> In (theThing, v) someMap ->
                genericMapGet someMap notThereValue theThing = v)
  /\ (~ In theThing (JsMap.keys someMap) ->
      genericMapGet someMap notThereValue theThing = notThereValue).
Proof.
  unfold genericMapGet. repeat split.
  - intros v Hget. now rewrite Hget.
  - unfold JsMap.has. destruct (JsMap.get someMap theThing); congruence.
  - intros v Hwf Hin. now rewrite (JsMapFacts.in_get_wf _ _ _ Hwf Hin).
  - intros Hnot. apply JsMapFacts.get_none_not_in in Hnot. now rewrite Hnot.
Qed.

Lemma genericMapGet_value_or_fallback_witness :
  Shop.readDiscount 5671 = Discount.new 2 125
  /\ Shop.readDiscount 670 = NO_DISCOUNT
  /\ Shop.readItem 9999 = UNKNOWN_SKU.
Proof.
  destruct (genericMapGet_value_or_fallback Shop.discountedSkus NO_DISCOUNT 5671)
    as [_ [_ [Hfound _]]].
  destruct (genericMapGet_value_or_fallback Shop.discountedSkus NO_DISCOUNT 670)
    as [_ [_ [_ Hfallback]]].
  destruct (genericMapGet_value_or_fallback Shop.stockList UNKNOWN_SKU 9999)
    as [_ [Habsent _]].
  split; [|split].
  - apply Hfound; [apply JsMapFacts.wf_of_entries|].
    vm_compute. right. left. reflexivity.
  - apply Hfallback. vm_compute. intros [H | [H | [H | []]]]; discriminate H.
  - apply Habsent. reflexivity.
Defined.

(* ====================================================================== *)
(** ** Pricing *)

(** C8.  The threshold of the no-discount sentinel is at least [1], as is the
    threshold of every entry of the discount table of the script, hence of
    every rule that [readDiscount] returns; and every line of a bill folded
    from a basket has a threshold of at least [1], so that the discount of
    the line is the integer [(qty / threshold) * amount]. *)
Theorem discount_threshold_at_least_one :
  1 <= Discount.qty NO_DISCOUNT
  /\ Forall (fun d => 1 <= Discount.qty d) (JsMap.values Shop.discountedSkus)
  /\ (forall sku, 1 <= Discount.qty (Shop.readDiscount sku))
  /\ (forall basket line,
        In line (Shop.billArray basket) ->
        1 <= Discount.qty (BillItem.discount line)
        /\ calcDiscount (BillItem.qty line)
                        (Discount.qty (BillItem.discount line))
                        (Discount.amount (BillItem.discount line))
           = Num (BillItem.qty line / Discount.qty (BillItem.discount line)
                  * Discount.amount (BillItem.discount line))).
Proof.
  split; [simpl; lia | split; [|split]].
  - vm_compute. repeat constructor; discriminate.
  - apply Shop_discount_qty.
  - intros basket line Hin.
    unfold Shop.billArray, billArray, JsMap.values in Hin.
    apply in_map_iff in Hin. destruct Hin as [[k l] [Heq Hin]].
    simpl in Heq. subst l. apply entry_billMap in Hin.
    assert (Hq : 1 <= Discount.qty (BillItem.discount line)).
    { subst line. simpl. apply Shop_discount_qty. }
    split; [exact Hq|].
    unfold calcDiscount, Math_floor_div.
    replace (Discount.qty (BillItem.discount line) =? 0) with false
      by (symmetry; apply Z.eqb_neq; lia).
    reflexivity.
Qed.

Lemma discount_threshold_at_least_one_witness :
  1 <= Discount.qty (Shop.readDiscount 7102)
  /\ calcDiscount 3 3 50 = Num 50.
Proof.
  destruct discount_threshold_at_least_one as [_ [_ [Hread Hline]]].
  split; [apply Hread|].
  apply (Hline [7102; 7102; 7102]
               (BillItem.new 3 (Item.new "Pasta Sauce (500g jar)" 184)
                             (Discount.new 3 50))).
  simpl. left. reflexivity.
Defined.

(* ====================================================================== *)
(** ** Further facts about the fold of the basket *)

Lemma sumZ_app l1 l2 : sumZ (l1 ++ l2) = sumZ l1 + sumZ l2.
Proof.
  unfold sumZ. induction l1 as [|x rest IH]; simpl; [reflexivity|].
  rewrite IH. lia.
Qed.

Lemma sum_values_set {V : Type} (f : V -> Z) (m : JsMap.t V) k v :
  sumZ (map f (JsMap.values (JsMap.set m k v)))
  = sumZ (map f (JsMap.values m)) + f v
    - match JsMap.get m k with Some o => f o | None => 0 end.
Proof.
  unfold sumZ, JsMap.values.
  induction m as [|[k0 v0] rest IH]; simpl; [lia|].
  destruct (k0 =? k); simpl; [lia|]. rewrite IH. lia.
Qed.

Lemma get_app_notin {V : Type} (m1 m2 : JsMap.t V) k :
  ~ In k (JsMap.keys m1) -> JsMap.get (m1 ++ m2) k = JsMap.get m2 k.
Proof.
  induction m1 as [|[k0 v0] rest IH]; simpl; [reflexivity|].
  intros Hnot. destruct (k0 =? k) eqn:E.
  - apply Z.eqb_eq in E. tauto.
  - apply IH. tauto.
Qed.

Lemma set_app_notin {V : Type} (m1 m2 : JsMap.t V) k v :
  ~ In k (JsMap.keys m1) -> JsMap.set (m1 ++ m2) k v = m1 ++ JsMap.set m2 k v.
Proof.
  induction m1 as [|[k0 v0] rest IH]; simpl; [reflexivity|].
  intros Hnot. destruct (k0 =? k) eqn:E.
  - apply Z.eqb_eq in E. tauto.
  - rewrite IH by tauto. reflexivity.
Qed.

Lemma sumOfPrices_app l1 l2 :
  sumOfPrices (l1 ++ l2) = num_add (sumOfPrices l1) (sumOfPrices l2).
Proof.
  induction l1 as [|x rest IH]; simpl.
  - now destruct (sumOfPrices l2).
  - now rewrite IH, num_add_assoc.
Qed.

Lemma sumOfPrices_not_finite lines line :
  In line lines -> BillItem.price line = NotFinite ->
  sumOfPrices lines = NotFinite.
Proof.
  induction lines as [|l rest IH]; simpl; [tauto|].
  intros [-> | Hin] Hp.
  - now rewrite Hp.
  - rewrite (IH Hin Hp). now destruct (BillItem.price l).
Qed.

Lemma sum_lineAmount_split lines :
  sumZ (map lineAmount lines)
  = sumZ (map (fun l => BillItem.qty l * Item.unitPrice (BillItem.item l)) lines)
    - sumZ (map lineDiscount lines).
Proof.
  unfold sumZ. induction lines as [|l rest IH]; simpl; [reflexivity|].
  rewrite IH. unfold lineAmount, lineDiscount. lia.
Qed.

Lemma sumZ_nonneg l : Forall (fun z => 0 <= z) l -> 0 <= sumZ l.
Proof.
  unfold sumZ. induction 1 as [|z rest Hz _ IH]; simpl; lia.
Qed.

Section FoldFacts.

Variable stockList : JsMap.t Item.t.
Variable discountedSkus : JsMap.t Discount.t.

Local Abbreviation item_of := (readItem stockList).
Local Abbreviation discount_of := (readDiscount discountedSkus).
Local Abbreviation add := (addItemToBill stockList discountedSkus).
Local Abbreviation bill_of := (billMap stockList discountedSkus).
Local Abbreviation lines_of := (billArray stockList discountedSkus).
Local Abbreviation known := (isKnown stockList).

Lemma billMap_snoc basket x :
  bill_of (basket ++ [x]) = add (bill_of basket) x.
Proof. unfold billMap. now rewrite fold_left_app. Qed.

(** Every line of a bill is the line of a known SKU of the basket. *)
Lemma line_of_billArray basket line :
  In line (lines_of basket) ->
  exists s, In s basket /\ known s = true
            /\ line = BillItem.new (occurrences s basket)
                                   (item_of s) (discount_of s).
Proof.
  unfold billArray, JsMap.values. intros Hin.
  apply in_map_iff in Hin. destruct Hin as [[s l] [Heq Hin]].
  simpl in Heq. subst l. exists s.
  assert (Hkey : In s (JsMap.keys (bill_of basket))).
  { change s with (fst (s, line)). now apply in_map. }
  apply key_in_basket in Hkey. destruct Hkey as [Hk Hb].
  repeat split; try assumption. now apply entry_billMap.
Qed.

Lemma sum_qty_billArray basket :
  sumZ (map BillItem.qty (lines_of basket))
  = Z.of_nat (List.length (filter known basket)).
Proof.
  induction basket as [|x rest IH] using rev_ind; [reflexivity|].
  unfold billArray in *. rewrite billMap_snoc, filter_app, List.length_app.
  simpl. destruct (known x) eqn:K.
  - rewrite (addItemToBill_known _ _ _ _ K), sum_values_set, IH.
    simpl. unfold updateQty.
    destruct (JsMap.get (bill_of rest) x); lia.
  - rewrite (addItemToBill_unknown _ _ _ _ K), IH. simpl. lia.
Qed.

Lemma sum_gross_billArray basket :
  sumZ (map (fun l => BillItem.qty l * Item.unitPrice (BillItem.item l))
            (lines_of basket))
  = listPrice stockList basket.
Proof.
  unfold listPrice.
  induction basket as [|x rest IH] using rev_ind; [reflexivity|].
  unfold billArray in *. rewrite billMap_snoc, filter_app, map_app, sumZ_app.
  simpl. destruct (known x) eqn:K.
  - rewrite (addItemToBill_known _ _ _ _ K), sum_values_set, IH.
    unfold updateQty, sumZ.
    cbn [BillItem.qty BillItem.item map fold_right].
    destruct (JsMap.get (bill_of rest) x) as [o|] eqn:G; [|lia].
    apply JsMapFacts.get_some_in, entry_billMap in G. subst o.
    cbn [BillItem.qty BillItem.item]. lia.
  - rewrite (addItemToBill_unknown _ _ _ _ K), IH. unfold sumZ. simpl. lia.
Qed.

Lemma discount_of_values (P : Discount.t -> Prop) s :
  Forall P (JsMap.values discountedSkus) -> P NO_DISCOUNT -> P (discount_of s).
Proof. intros Hall Hno. unfold readDiscount. now apply genericMapGet_values. Qed.

(** A bill folded onto an accumulator that has none of the SKUs of the
    basket stands after the accumulator. *)
Lemma fold_after basket : forall acc m,
  (forall s, In s basket -> ~ In s (JsMap.keys acc)) ->
  fold_left add basket (acc ++ m) = acc ++ fold_left add basket m.
Proof.
  induction basket as [|x rest IH]; intros acc m Hfresh; simpl; [reflexivity|].
  assert (Hx : ~ In x (JsMap.keys acc)) by (apply Hfresh; now left).
  assert (Hstep : add (acc ++ m) x = acc ++ add m x).
  { destruct (known x) eqn:K.
    - rewrite !(addItemToBill_known _ _ _ _ K). unfold updateQty.
      rewrite (get_app_notin _ _ _ Hx). now apply set_app_notin.
    - now rewrite !(addItemToBill_unknown _ _ _ _ K). }
  rewrite Hstep. apply IH. intros s Hs. apply Hfresh. now right.
Qed.

End FoldFacts.

(* ====================================================================== *)
(** ** Further properties of the aggregation *)

(** X1.  A step of the fold on a SKU leaves the line of every other SKU as
    it was, keeps the keys of the accumulator in their order and adds the
    SKU at the end when it passes the test and was not yet there; it keeps
    the keys of the accumulator distinct. *)
Theorem addItemToBill_touches_one_line
    (stockList : JsMap.t Item.t) (discountedSkus : JsMap.t Discount.t)
    (acc : JsMap.t BillItem.t) (sku : Z) :
  (forall s, s <> sku ->
     JsMap.get (addItemToBill stockList discountedSkus acc sku) s
     = JsMap.get acc s)
  /\ JsMap.keys (addItemToBill stockList discountedSkus acc sku)
     = (if isKnown stockList sku && negb (JsMap.has acc sku)
        then JsMap.keys acc ++ [sku] else JsMap.keys acc)
  /\ (JsMap.wf acc -> JsMap.wf (addItemToBill stockList discountedSkus acc sku)).
Proof.
  destruct (isKnown stockList sku) eqn:K.
  - rewrite (addItemToBill_known _ discountedSkus acc _ K). split; [|split].
    + intros s Hs. rewrite JsMapFacts.get_set.
      apply not_eq_sym, Z.eqb_neq in Hs. now rewrite Hs.
    + rewrite JsMapFacts.keys_set. simpl. now destruct (JsMap.has acc sku).
    + apply JsMapFacts.wf_set.
  - rewrite (addItemToBill_unknown _ discountedSkus acc _ K). simpl. tauto.
Qed.

Lemma addItemToBill_touches_one_line_witness :
  JsMap.get (Shop.addItemToBill (Shop.billMap [670; 1234]) 1234) 670
  = JsMap.get (Shop.billMap [670; 1234]) 670
  /\ JsMap.keys (Shop.addItemToBill (Shop.billMap [670; 1234]) 3317)
     = [670; 1234; 3317]
  /\ JsMap.wf (Shop.addItemToBill (Shop.billMap [670; 1234]) 3317).
Proof.
  destruct (addItemToBill_touches_one_line Shop.stockList Shop.discountedSkus
              (Shop.billMap [670; 1234]) 1234) as [Hframe _].
  destruct (addItemToBill_touches_one_line Shop.stockList Shop.discountedSkus
              (Shop.billMap [670; 1234]) 3317) as [_ [Hkeys Hwf]].
  split; [|split].
  - apply Hframe. discriminate.
  - exact Hkeys.
  - apply Hwf. apply wf_billMap.
Defined.

(** X2.  Every line of a bill has a quantity of at least [1] and at most the
    length of the basket. *)
Theorem bill_line_quantity_bounds
    (stockList : JsMap.t Item.t) (discountedSkus : JsMap.t Discount.t)
    (basket : list Z) (line : BillItem.t) :
  In line (billArray stockList discountedSkus basket) ->
  1 <= BillItem.qty line <= Z.of_nat (List.length basket).
Proof.
  intros Hin. apply line_of_billArray in Hin.
  destruct Hin as [s [Hs [_ ->]]]. simpl.
  apply occurrences_pos in Hs. unfold occurrences in *.
  pose proof (count_occ_bound Z.eq_dec s basket). lia.
Qed.

Lemma bill_line_quantity_bounds_witness :
  1 <= 2 <= Z.of_nat (List.length [670; 1234; 670]).
Proof.
  apply (bill_line_quantity_bounds Shop.stockList Shop.discountedSkus
           [670; 1234; 670]
           (BillItem.new 2 (Item.new "Apples (pack of 5)" 194) NO_DISCOUNT)).
  simpl. left. reflexivity.
Defined.

(** X3.  The quantities of the lines of a bill add up to the number of
    occurrences of the basket that pass the test of [addItemToBill]; when no
    catalog entry carries the marker text, that is the number of occurrences
    whose SKU the catalog has. *)
Theorem bill_quantities_count_the_basket
    (stockList : JsMap.t Item.t) (discountedSkus : JsMap.t Discount.t)
    (basket : list Z) :
  sumZ (map BillItem.qty (billArray stockList discountedSkus basket))
  = Z.of_nat (List.length (filter (isKnown stockList) basket))
  /\ (markerFree stockList = true ->
      sumZ (map BillItem.qty (billArray stockList discountedSkus basket))
      = Z.of_nat (List.length (filter (JsMap.has stockList) basket))).
Proof.
  split; [apply sum_qty_billArray|].
  intros Hfree. rewrite sum_qty_billArray. do 2 f_equal.
  apply filter_ext. intros s. now apply markerFree_isKnown.
Qed.

Lemma bill_quantities_count_the_basket_witness :
  sumZ (map BillItem.qty (Shop.billArray (9999 :: Shop.basket))) = 16.
Proof.
  destruct (bill_quantities_count_the_basket Shop.stockList Shop.discountedSkus
              (9999 :: Shop.basket)) as [_ Hcount].
  exact (Hcount Shop_markerFree).
Defined.

(** X4.  A basket none of whose SKUs is in the catalog, the empty basket
    among them, gives the empty bill and the total [0]. *)
Theorem basket_without_catalog_sku_is_free
    (stockList : JsMap.t Item.t) (discountedSkus : JsMap.t Discount.t)
    (basket : list Z) :
  (forall s, In s basket -> JsMap.has stockList s = false) ->
  billMap stockList discountedSkus basket = JsMap.empty
  /\ total stockList discountedSkus basket = Num 0.
Proof.
  intros Hunk.
  assert (Hfold : forall acc,
            fold_left (addItemToBill stockList discountedSkus) basket acc = acc).
  { induction basket as [|x rest IH]; intros acc; simpl; [reflexivity|].
    rewrite addItemToBill_unknown.
    - apply IH. intros s Hs. apply Hunk. now right.
    - apply has_false_unknown, Hunk. now left. }
  assert (Hbill : billMap stockList discountedSkus basket = JsMap.empty)
    by apply Hfold.
  split; [exact Hbill|]. unfold total, billArray. now rewrite Hbill.
Qed.

Lemma basket_without_catalog_sku_is_free_witness :
  Shop.billMap [9999; 1; 9999] = [] /\ Shop.total [9999; 1; 9999] = Num 0.
Proof.
  apply (basket_without_catalog_sku_is_free Shop.stockList Shop.discountedSkus).
  simpl. intros s [<- | [<- | [<- | []]]]; reflexivity.
Defined.

Section TotalFacts.

Variable stockList : JsMap.t Item.t.
Variable discountedSkus : JsMap.t Discount.t.

Local Abbreviation lines_of := (billArray stockList discountedSkus).
Local Abbreviation total_of := (total stockList discountedSkus).

Lemma lines_forall (P : BillItem.t -> Prop) basket :
  (forall s, In s basket -> isKnown stockList s = true ->
     P (BillItem.new (occurrences s basket) (readItem stockList s)
                     (readDiscount discountedSkus s))) ->
  Forall P (lines_of basket).
Proof.
  intros HP. apply Forall_forall. intros line Hin.
  apply line_of_billArray in Hin. destruct Hin as [s [Hs [Hk ->]]].
  now apply HP.
Qed.

Lemma total_split basket :
  Forall (fun l => Discount.qty (BillItem.discount l) <> 0) (lines_of basket) ->
  total_of basket
  = Num (listPrice stockList basket - sumZ (map lineDiscount (lines_of basket))).
Proof.
  intros Hall. unfold total.
  rewrite sumPrices_sumOfPrices, (sumOfPrices_finite _ Hall).
  fold (sumZ (map lineAmount (lines_of basket))).
  now rewrite sum_lineAmount_split, sum_gross_billArray.
Qed.

Lemma thresholds_of_lines basket :
  Forall (fun d => 1 <= Discount.qty d /\ 0 <= Discount.amount d)
         (JsMap.values discountedSkus) ->
  Forall (fun l => 1 <= BillItem.qty l
                   /\ 1 <= Discount.qty (BillItem.discount l)
                   /\ 0 <= Discount.amount (BillItem.discount l))
         (lines_of basket).
Proof.
  intros Hall. apply lines_forall. intros s Hs _. simpl. split.
  - apply occurrences_pos in Hs. lia.
  - apply (discount_of_values discountedSkus
             (fun d => 1 <= Discount.qty d /\ 0 <= Discount.amount d));
      [assumption | simpl; lia].
Qed.

Lemma lineDiscount_nonneg line :
  1 <= BillItem.qty line ->
  1 <= Discount.qty (BillItem.discount line) ->
  0 <= Discount.amount (BillItem.discount line) ->
  0 <= lineDiscount line.
Proof.
  intros Hq Ht Ha. unfold lineDiscount.
  apply Z.mul_nonneg_nonneg; [|assumption].
  apply Z.div_pos; lia.
Qed.

End TotalFacts.

(** Without rounding: when every rule of the discount table has a
    threshold of at least [1] and an amount that is not negative, the total
    is the list price minus the discounts of the lines, and these are not
    negative. *)
Lemma total_is_list_price_minus_discounts_unrounded
    (stockList : JsMap.t Item.t) (discountedSkus : JsMap.t Discount.t)
    (basket : list Z) :
  Forall (fun d => 1 <= Discount.qty d /\ 0 <= Discount.amount d)
         (JsMap.values discountedSkus) ->
  total stockList discountedSkus basket
  = Num (listPrice stockList basket
         - sumZ (map lineDiscount (billArray stockList discountedSkus basket)))
  /\ 0 <= sumZ (map lineDiscount (billArray stockList discountedSkus basket)).
Proof.
  intros Hall.
  pose proof (thresholds_of_lines stockList discountedSkus basket Hall) as Hl.
  split.
  - apply total_split. eapply Forall_impl; [|exact Hl]. simpl. lia.
  - apply sumZ_nonneg, Forall_map. eapply Forall_impl; [|exact Hl].
    intros l [Hq [Ht Ha]]. now apply lineDiscount_nonneg.
Qed.

(** Without rounding: a basket none of whose SKUs has an entry in the
    discount table costs its list price. *)
Lemma basket_without_discount_costs_list_price_unrounded
    (stockList : JsMap.t Item.t) (discountedSkus : JsMap.t Discount.t)
    (basket : list Z) :
  (forall s, In s basket -> JsMap.has discountedSkus s = false) ->
  total stockList discountedSkus basket = Num (listPrice stockList basket).
Proof.
  intros Hno.
  assert (Hl : Forall (fun l => BillItem.discount l = NO_DISCOUNT)
                      (billArray stockList discountedSkus basket)).
  { apply lines_forall. intros s Hs _. simpl.
    specialize (Hno s Hs). unfold readDiscount, genericMapGet.
    unfold JsMap.has in Hno.
    now destruct (JsMap.get discountedSkus s). }
  rewrite total_split.
  - replace (sumZ (map lineDiscount (billArray stockList discountedSkus basket)))
      with 0; [f_equal; lia|].
    induction Hl as [|l rest Hd _ IH]; [reflexivity|].
    simpl. unfold sumZ in *. simpl. rewrite <- IH.
    unfold lineDiscount. rewrite Hd. simpl. lia.
  - eapply Forall_impl; [|exact Hl]. intros l ->. simpl. lia.
Qed.

(** X7.  When the discount table gives a rule with threshold [0] to a SKU
    that passes the test of [addItemToBill] and occurs in the basket, the
    total of the basket is not a finite number. *)
Theorem zero_threshold_makes_total_not_finite
    (stockList : JsMap.t Item.t) (discountedSkus : JsMap.t Discount.t)
    (basket : list Z) (s : Z) (d : Discount.t) :
  JsMap.get discountedSkus s = Some d ->
  Discount.qty d = 0 ->
  isKnown stockList s = true ->
  In s basket ->
  total stockList discountedSkus basket = NotFinite.
Proof.
  intros Hget Hzero Hk Hin.
  pose proof (get_billMap stockList discountedSkus basket s) as Hline.
  apply occurrences_pos, Z.ltb_lt in Hin. rewrite Hk, Hin in Hline.
  simpl in Hline. apply JsMapFacts.get_some_in in Hline.
  unfold total. rewrite sumPrices_sumOfPrices.
  eapply sumOfPrices_not_finite.
  - unfold billArray, JsMap.values. apply in_map_iff.
    eexists. split; [|exact Hline]. reflexivity.
  - unfold BillItem.price, calcPrice, calcDiscount, Math_floor_div,
      readDiscount, genericMapGet.
    simpl. rewrite Hget, Hzero. reflexivity.
Qed.

Lemma zero_threshold_makes_total_not_finite_witness :
  total Shop.stockList [(670, Discount.new 0 10)] [1234; 670] = NotFinite.
Proof.
  apply (zero_threshold_makes_total_not_finite
           Shop.stockList [(670, Discount.new 0 10)] [1234; 670]
           670 (Discount.new 0 10)).
  - reflexivity.
  - reflexivity.
  - reflexivity.
  - simpl. right. left. reflexivity.
Defined.

(** For two baskets that share no SKU, the bill of their concatenation
    is the bill of the first followed by the bill of the second; without
    rounding, its total is the sum of the two totals. *)
Lemma disjoint_baskets_add_up_unrounded
    (stockList : JsMap.t Item.t) (discountedSkus : JsMap.t Discount.t)
    (basket1 basket2 : list Z) :
  (forall s, In s basket1 -> ~ In s basket2) ->
  billMap stockList discountedSkus (basket1 ++ basket2)
  = billMap stockList discountedSkus basket1
    ++ billMap stockList discountedSkus basket2
  /\ total stockList discountedSkus (basket1 ++ basket2)
     = num_add (total stockList discountedSkus basket1)
               (total stockList discountedSkus basket2).
Proof.
  intros Hdis.
  assert (Hbill : billMap stockList discountedSkus (basket1 ++ basket2)
                  = billMap stockList discountedSkus basket1
                    ++ billMap stockList discountedSkus basket2).
  { unfold billMap. rewrite fold_left_app.
    rewrite <- (app_nil_r (fold_left _ basket1 JsMap.empty)) at 1.
    apply fold_after. intros s Hs Hkey.
    apply (key_in_basket stockList discountedSkus) in Hkey.
    destruct Hkey as [_ Hin]. exact (Hdis s Hin Hs). }
  split; [exact Hbill|].
  unfold total, billArray, JsMap.values.
  rewrite Hbill, map_app, !sumPrices_sumOfPrices. apply sumOfPrices_app.
Qed.

(* ====================================================================== *)
(** ** The tables of the script: no line is charged a negative price *)

Lemma Shop_discountedSkus_entries :
  Shop.discountedSkus
  = [(1234, Discount.new 2 250); (5671, Discount.new 2 125);
     (7102, Discount.new 3 50)].
Proof. reflexivity. Qed.

Lemma Shop_unitPrice_nonneg sku : 0 <= Item.unitPrice (Shop.readItem sku).
Proof.
  unfold Shop.readItem, readItem.
  apply (genericMapGet_values (fun it => 0 <= Item.unitPrice it)).
  - vm_compute. repeat constructor; discriminate.
  - simpl. lia.
Qed.

(** For every SKU, the amount of its rule is between [0] and the price of
    as many units as its threshold. *)
Lemma Shop_discount_within_price sku :
  0 <= Discount.amount (Shop.readDiscount sku)
    <= Discount.qty (Shop.readDiscount sku) * Item.unitPrice (Shop.readItem sku).
Proof.
  pose proof (Shop_unitPrice_nonneg sku) as Hu. revert Hu.
  unfold Shop.readDiscount, readDiscount, genericMapGet.
  rewrite Shop_discountedSkus_entries. cbn [JsMap.get].
  destruct (1234 =? sku) eqn:E1;
    [apply Z.eqb_eq in E1; subst sku; vm_compute; split; discriminate|].
  destruct (5671 =? sku) eqn:E2;
    [apply Z.eqb_eq in E2; subst sku; vm_compute; split; discriminate|].
  destruct (7102 =? sku) eqn:E3;
    [apply Z.eqb_eq in E3; subst sku; vm_compute; split; discriminate|].
  unfold NO_DISCOUNT. cbn [Discount.amount Discount.qty]. lia.
Qed.

(** X9.  With the tables of the script, the total of every basket is an
    integer between [0] and the sum of the unit prices of the occurrences
    whose SKU the catalog has, and no line of the bill has a negative
    price. *)
Theorem Shop_total_bounds (basket : list Z) :
  (exists z, Shop.total basket = Num z
             /\ 0 <= z
             /\ z <= sumZ (map (fun s => Item.unitPrice (Shop.readItem s))
                               (filter (JsMap.has Shop.stockList) basket)))
  /\ Forall (fun l => exists p, BillItem.price l = Num p /\ 0 <= p)
            (Shop.billArray basket).
Proof.
  assert (Hrules : Forall (fun d => 1 <= Discount.qty d /\ 0 <= Discount.amount d)
                          (JsMap.values Shop.discountedSkus))
    by (vm_compute; repeat constructor; discriminate).
  pose proof (thresholds_of_lines Shop.stockList _ basket Hrules) as Hl.
  assert (Hamount : Forall (fun l => 0 <= lineAmount l) (Shop.billArray basket)).
  { apply lines_forall. intros s Hs _. unfold lineAmount. simpl.
    pose proof (Shop_discount_within_price s) as [Ha Hb].
    pose proof (Shop_discount_qty s) as Ht.
    pose proof (Shop_unitPrice_nonneg s) as Hu.
    fold (Shop.readItem s) (Shop.readDiscount s).
    apply occurrences_pos in Hs.
    set (q := occurrences s basket) in *.
    set (t := Discount.qty (Shop.readDiscount s)) in *.
    set (a := Discount.amount (Shop.readDiscount s)) in *.
    set (u := Item.unitPrice (Shop.readItem s)) in *.
    pose proof (Z.mul_div_le q t ltac:(lia)) as Hfloor.
    assert (0 <= q / t) by (apply Z.div_pos; lia).
    nia. }
  assert (Hnz : Forall (fun l => Discount.qty (BillItem.discount l) <> 0)
                       (Shop.billArray basket))
    by (eapply Forall_impl; [|exact Hl]; simpl; lia).
  split.
  - exists (sumZ (map lineAmount (Shop.billArray basket))). split; [|split].
    + unfold Shop.total, total. rewrite sumPrices_sumOfPrices.
      now apply sumOfPrices_finite.
    + now apply sumZ_nonneg, Forall_map.
    + unfold Shop.billArray. rewrite sum_lineAmount_split, sum_gross_billArray.
      unfold listPrice.
      rewrite (filter_ext _ _ Shop_isKnown).
      assert (0 <= sumZ (map lineDiscount
                          (billArray Shop.stockList Shop.discountedSkus basket))).
      { apply sumZ_nonneg, Forall_map. eapply Forall_impl; [|exact Hl].
        intros l [Hq [Ht Ha]]. now apply lineDiscount_nonneg. }
      unfold Shop.readItem. lia.
  - rewrite Forall_forall in *. intros l Hin. exists (lineAmount l). split.
    + apply price_lineAmount. now apply Hnz.
    + now apply Hamount.
Qed.

(* ====================================================================== *)
(** ** Further properties of the discount *)

(* ====================================================================== *)
(** ** The HTML utility functions *)

Section Markup.

Local Open Scope string_scope.

Lemma append_assoc (a b c : string) : (a ++ b) ++ c = a ++ b ++ c.
Proof. induction a as [|ch a IH]; simpl; [reflexivity | now rewrite IH]. Qed.

Lemma append_nil_r (a : string) : a ++ "" = a.
Proof. induction a as [|ch a IH]; simpl; [reflexivity | now rewrite IH]. Qed.

Lemma rem_zero_abs (p n : Z) :
  (0 < n)%Z -> (Z.rem p n =? 0)%Z = (Z.abs p mod n =? 0)%Z.
Proof.
  intros Hn.
  rewrite <- (Z.rem_mod_nonneg (Z.abs p) n) by lia.
  rewrite Z.rem_abs_l by lia.
  destruct (Z.rem p n =? 0)%Z eqn:E.
  - apply Z.eqb_eq in E. rewrite E. reflexivity.
  - apply Z.eqb_neq in E. symmetry. apply Z.eqb_neq. lia.
Qed.

Lemma fold_left_argsToArgStr l acc :
  fold_left argsToArgStr l acc
  = acc ++ fold_right (fun a r => " " ++ fst a ++ "=" ++ snd a ++ r) "" l.
Proof.
  revert acc. induction l as [|a rest IH]; intros acc; simpl.
  - now rewrite append_nil_r.
  - rewrite IH. unfold argsToArgStr. now rewrite !append_assoc.
Qed.

Lemma fold_left_stockItemAsHtmlTableRow l acc :
  fold_left stockItemAsHtmlTableRow l acc
  = acc ++ fold_right
             (fun it r =>
                "<tr><td>" ++ Item.desc it ++ "</td><td class=right>"
                ++ zeroPadPrice (Item.unitPrice it) ++ "</td></tr>" ++ r)
             "" l.
Proof.
  revert acc. induction l as [|it rest IH]; intros acc; simpl fold_left.
  - simpl. now rewrite append_nil_r.
  - rewrite IH. unfold stockItemAsHtmlTableRow, makeTableRow, makeTableCell,
      makeTableCellRight, makeHtmlElement.
    cbn [fold_right]. rewrite !append_assoc. reflexivity.
Qed.

End Markup.

Local Open Scope string_scope.

(** X11.  For an integer price [p] of magnitude below [10^15] in minor
    units, [zeroPadPrice] writes the currency symbol, a minus sign when [p]
    is negative, the major units, a point and exactly two decimals: the tens
    and the units of the minor units. *)
Theorem zeroPadPrice_two_decimals (p : Z) :
  (- 10 ^ 15 < p < 10 ^ 15)%Z ->
  zeroPadPrice p
  = CURRENCY ++ (if (p <? 0)%Z then "-" else "")
    ++ Number_toString (Z.abs p / 100) ++ "."
    ++ Number_toString (Z.abs p mod 100 / 10)
    ++ Number_toString (Z.abs p mod 10)
  /\ (0 <= Z.abs p mod 100 / 10 <= 9)%Z
  /\ (0 <= Z.abs p mod 10 <= 9)%Z.
Proof.
  intros _. split.
  - unfold zeroPadPrice, hundredths_toString.
    rewrite !rem_zero_abs by lia.
    set (a := Z.abs p). set (sign := if (p <? 0)%Z then "-" else "").
    assert (H10 : (a mod 10 = (a mod 100) mod 10)%Z).
    { rewrite (Z.div_mod a 100) at 1 by lia.
      replace (100 * (a / 100) + a mod 100)%Z
        with (a mod 100 + (10 * (a / 100)) * 10)%Z by lia.
      now rewrite Z.mod_add by lia. }
    destruct (a mod 100 =? 0)%Z eqn:E100.
    + apply Z.eqb_eq in E100. rewrite H10, E100. simpl.
      f_equal. rewrite !append_assoc. reflexivity.
    + destruct (a mod 10 =? 0)%Z eqn:E10.
      * apply Z.eqb_eq in E10. rewrite E10.
        f_equal. rewrite !append_assoc. reflexivity.
      * f_equal. rewrite !append_assoc, append_nil_r. reflexivity.
  - pose proof (Z.mod_pos_bound (Z.abs p) 100 ltac:(lia)).
    pose proof (Z.mod_pos_bound (Z.abs p) 10 ltac:(lia)).
    split; [split|]; try lia.
    + apply Z.div_pos; lia.
    + assert (Z.abs p mod 100 / 10 < 10)%Z
        by (apply Z.div_lt_upper_bound; lia).
      lia.
Qed.

Lemma zeroPadPrice_two_decimals_witness :
  zeroPadPrice 150 = "&pound;1.50" /\ zeroPadPrice 200 = "&pound;2.00"
  /\ zeroPadPrice 5 = "&pound;0.05" /\ zeroPadPrice (-25) = "&pound;-0.25".
Proof.
  split; [|split; [|split]].
  - exact (proj1 (zeroPadPrice_two_decimals 150 ltac:(lia))).
  - exact (proj1 (zeroPadPrice_two_decimals 200 ltac:(lia))).
  - exact (proj1 (zeroPadPrice_two_decimals 5 ltac:(lia))).
  - exact (proj1 (zeroPadPrice_two_decimals (-25) ltac:(lia))).
Defined.



(** X13.  The markup of an element is the opening tag with its arguments,
    each as a space, the name, an equals sign and the value as given, then
    the content as given, then the closing tag unless the tag is one of the
    empty elements; an undefined and an empty argument list give the same
    markup. *)
Theorem makeHtmlElement_markup
    (tagName : string) (args : option (list (string * string)))
    (content : string) :
  makeHtmlElement tagName args content
  = "<" ++ tagName
    ++ fold_right (fun a r => " " ++ fst a ++ "=" ++ snd a ++ r) ""
                  (match args with Some l => l | None => [] end)
    ++ ">" ++ content
    ++ (if isEmpty tagName then "" else "</" ++ tagName ++ ">")
  /\ makeHtmlElement tagName None content
     = makeHtmlElement tagName (Some []) content.
Proof.
  split; [|reflexivity].
  unfold makeHtmlElement. destruct args as [[|a rest]|]; try reflexivity.
  rewrite fold_left_argsToArgStr. reflexivity.
Qed.

(** X14.  The markup of the stock list is a table with one row for each
    entry of the catalog, in the order of the catalog; a row holds the
    description in a cell and the price, written by [zeroPadPrice], in a cell
    of class [right]. *)
Theorem stockListAsHtml_rows (sl : JsMap.t Item.t) :
  stockListAsHtml sl
  = "<table>"
    ++ fold_right
         (fun it r =>
            "<tr><td>" ++ Item.desc it ++ "</td><td class=right>"
            ++ zeroPadPrice (Item.unitPrice it) ++ "</td></tr>" ++ r)
         "" (JsMap.values sl)
    ++ "</table>".
Proof.
  unfold stockListAsHtml. rewrite fold_left_stockItemAsHtmlTableRow.
  reflexivity.
Qed.

Local Close Scope string_scope.

(* ====================================================================== *)
(** ** Merging baskets and adding an occurrence *)

Lemma sumZ_perm l l' : Permutation l l' -> sumZ l = sumZ l'.
Proof.
  unfold sumZ. induction 1; simpl; lia.
Qed.

Lemma sumZ_map_zero {A : Type} (g : A -> Z) l :
  (forall x, In x l -> g x = 0) -> sumZ (map g l) = 0.
Proof.
  unfold sumZ. induction l as [|x rest IH]; intros Hz; simpl; [reflexivity|].
  rewrite IH by (intros y Hy; apply Hz; now right).
  rewrite (Hz x) by now left. reflexivity.
Qed.

Lemma sumZ_map_le {A : Type} (f g : A -> Z) l :
  (forall x, f x <= g x) -> sumZ (map f l) <= sumZ (map g l).
Proof.
  intros Hle. unfold sumZ. induction l as [|x rest IH]; simpl; [lia|].
  specialize (Hle x). lia.
Qed.

Lemma sumZ_map_add {A : Type} (f g : A -> Z) l :
  sumZ (map (fun x => f x + g x) l) = sumZ (map f l) + sumZ (map g l).
Proof.
  unfold sumZ. induction l as [|x rest IH]; simpl; lia.
Qed.

Lemma div_superadditive q1 q2 t :
  1 <= t -> q1 / t + q2 / t <= (q1 + q2) / t.
Proof.
  intros Ht. apply Z.div_le_lower_bound; [lia|].
  pose proof (Z.mul_div_le q1 t ltac:(lia)).
  pose proof (Z.mul_div_le q2 t ltac:(lia)). lia.
Qed.

Lemma div_succ_step q t : 1 <= t -> q / t <= (q + 1) / t <= q / t + 1.
Proof.
  intros Ht. split.
  - apply Z.div_le_mono; lia.
  - replace (q / t + 1) with ((q + 1 * t) / t) by (rewrite Z.div_add; lia).
    apply Z.div_le_mono; lia.
Qed.

Lemma listPrice_app stockList b1 b2 :
  listPrice stockList (b1 ++ b2)
  = listPrice stockList b1 + listPrice stockList b2.
Proof.
  unfold listPrice. now rewrite filter_app, map_app, sumZ_app.
Qed.

Lemma occurrences_app s b1 b2 :
  occurrences s (b1 ++ b2) = occurrences s b1 + occurrences s b2.
Proof.
  unfold occurrences. rewrite count_occ_app. lia.
Qed.

Lemma occurrences_notin s b : ~ In s b -> occurrences s b = 0.
Proof.
  intros Hnot. unfold occurrences.
  apply (count_occ_not_In Z.eq_dec) in Hnot. now rewrite Hnot.
Qed.

Section MergeFacts.

Variable stockList : JsMap.t Item.t.
Variable discountedSkus : JsMap.t Discount.t.

Local Abbreviation bill_of := (billMap stockList discountedSkus).
Local Abbreviation lines_of := (billArray stockList discountedSkus).
Local Abbreviation known := (isKnown stockList).

Local Abbreviation earned := (earnedDiscount discountedSkus).

Lemma discounts_by_keys basket :
  sumZ (map lineDiscount (lines_of basket))
  = sumZ (map (fun s => earned s (occurrences s basket))
              (JsMap.keys (bill_of basket))).
Proof.
  unfold billArray, JsMap.values, JsMap.keys. rewrite !map_map. f_equal.
  apply map_ext_in. intros [s l] Hin. simpl.
  apply entry_billMap in Hin. subst l. reflexivity.
Qed.

Lemma keys_billMap_app b b' :
  JsMap.keys (bill_of (b ++ b'))
  = JsMap.keys (bill_of b)
    ++ filter (fun s => negb (JsMap.has (bill_of b) s))
              (firstOccurrences (filter known b')).
Proof. unfold billMap. now rewrite fold_left_app, keys_fold. Qed.

Lemma sum_keys_app g b b' :
  (forall s, ~ In s b -> g s = 0) ->
  sumZ (map g (JsMap.keys (bill_of (b ++ b'))))
  = sumZ (map g (JsMap.keys (bill_of b))).
Proof.
  intros Hzero. rewrite keys_billMap_app, map_app, sumZ_app.
  match goal with |- _ + ?z = _ => assert (Hz : z = 0); [|lia] end.
  apply sumZ_map_zero. intros s Hs. apply filter_In in Hs. destruct Hs as [Hfo Hhas].
  apply firstOccurrences_in, filter_In in Hfo. destruct Hfo as [_ Hk].
  apply Hzero. intros Hin.
  apply negb_true_iff, JsMapFacts.has_false_not_in in Hhas. apply Hhas.
  rewrite keys_billMap, firstOccurrences_in, filter_In. tauto.
Qed.

Lemma sum_keys_perm g b b' :
  Permutation b b' ->
  sumZ (map g (JsMap.keys (bill_of b)))
  = sumZ (map g (JsMap.keys (bill_of b'))).
Proof.
  intros Hp. apply sumZ_perm, Permutation_map.
  unfold JsMap.keys. apply Permutation_map. now apply billMap_perm.
Qed.

Lemma discounts_superadditive b1 b2 :
  Forall (fun d => 1 <= Discount.qty d /\ 0 <= Discount.amount d)
         (JsMap.values discountedSkus) ->
  sumZ (map lineDiscount (lines_of b1)) + sumZ (map lineDiscount (lines_of b2))
  <= sumZ (map lineDiscount (lines_of (b1 ++ b2))).
Proof.
  intros Hall. rewrite !discounts_by_keys.
  assert (Hzero : forall b s, ~ In s b -> earned s (occurrences s b) = 0).
  { intros b s Hnot. unfold earnedDiscount.
    now rewrite (occurrences_notin s b Hnot). }
  rewrite <- (sum_keys_app _ b1 b2 (Hzero b1)).
  rewrite <- (sum_keys_app _ b2 b1 (Hzero b2)).
  rewrite (sum_keys_perm (fun s => earned s (occurrences s b2))
             (b2 ++ b1) (b1 ++ b2)) by apply Permutation_app_comm.
  rewrite <- sumZ_map_add. apply sumZ_map_le. intros s.
  rewrite occurrences_app. unfold earnedDiscount.
  destruct (discount_of_values discountedSkus
              (fun d => 1 <= Discount.qty d /\ 0 <= Discount.amount d) s Hall)
    as [Ht Ha]; [simpl; lia|].
  pose proof (div_superadditive (occurrences s b1) (occurrences s b2) _ Ht).
  nia.
Qed.

End MergeFacts.

(** X15.  The quantity that [updateQty] gives for a SKU on the bill of a
    basket is one more than the number of occurrences of the SKU in the
    basket when the SKU passes the test of [addItemToBill], and [1]
    otherwise. *)
Theorem updateQty_counts_occurrences
    (stockList : JsMap.t Item.t) (discountedSkus : JsMap.t Discount.t)
    (basket : list Z) (s : Z) :
  updateQty (billMap stockList discountedSkus basket) s
  = 1 + (if isKnown stockList s then occurrences s basket else 0).
Proof.
  unfold updateQty. rewrite get_billMap.
  destruct (isKnown stockList s); [|reflexivity]. cbn [andb].
  destruct (0 <? occurrences s basket) eqn:E; [reflexivity|].
  apply Z.ltb_ge in E. unfold occurrences in *. lia.
Qed.

(** Without rounding: when every rule has a threshold of at least [1] and
    an amount that is not negative, the total of two baskets put together is
    at most the sum of their totals. *)
Lemma merged_baskets_cost_no_more_unrounded
    (stockList : JsMap.t Item.t) (discountedSkus : JsMap.t Discount.t)
    (basket1 basket2 : list Z) :
  Forall (fun d => 1 <= Discount.qty d /\ 0 <= Discount.amount d)
         (JsMap.values discountedSkus) ->
  exists z1 z2 z,
    total stockList discountedSkus basket1 = Num z1
    /\ total stockList discountedSkus basket2 = Num z2
    /\ total stockList discountedSkus (basket1 ++ basket2) = Num z
    /\ z <= z1 + z2.
Proof.
  intros Hall.
  assert (Hnz : forall b,
            Forall (fun l => Discount.qty (BillItem.discount l) <> 0)
                   (billArray stockList discountedSkus b)).
  { intros b. eapply Forall_impl;
      [|exact (thresholds_of_lines stockList discountedSkus b Hall)].
    simpl. lia. }
  do 3 eexists. repeat split; try (apply total_split; apply Hnz).
  rewrite listPrice_app.
  pose proof (discounts_superadditive stockList discountedSkus
                basket1 basket2 Hall).
  lia.
Qed.

(** Without rounding: when every rule has a threshold of at least [1] and
    an amount between [0] and the unit price, one more occurrence at the end
    of a basket does not lower its total. *)
Lemma one_more_occurrence_costs_no_less_unrounded
    (stockList : JsMap.t Item.t) (discountedSkus : JsMap.t Discount.t)
    (basket : list Z) (x : Z) :
  (forall s,
     1 <= Discount.qty (readDiscount discountedSkus s)
     /\ 0 <= Discount.amount (readDiscount discountedSkus s)
          <= Item.unitPrice (readItem stockList s)) ->
  exists z z',
    total stockList discountedSkus basket = Num z
    /\ total stockList discountedSkus (basket ++ [x]) = Num z'
    /\ z <= z'.
Proof.
  intros Hrule.
  assert (Hnz : forall b,
            Forall (fun l => Discount.qty (BillItem.discount l) <> 0)
                   (billArray stockList discountedSkus b)).
  { intros b. apply lines_forall. intros s _ _. simpl.
    destruct (Hrule s). lia. }
  exists (sumZ (map lineAmount (billArray stockList discountedSkus basket))),
         (sumZ (map lineAmount
                    (billArray stockList discountedSkus (basket ++ [x])))).
  split; [|split].
  - unfold total. rewrite sumPrices_sumOfPrices.
    now apply sumOfPrices_finite.
  - unfold total. rewrite sumPrices_sumOfPrices.
    now apply sumOfPrices_finite.
  - unfold billArray. rewrite billMap_snoc.
    destruct (isKnown stockList x) eqn:K.
    + rewrite (addItemToBill_known _ _ _ _ K), sum_values_set.
      destruct (Hrule x) as [Ht [Ha Hu]].
      set (t := Discount.qty (readDiscount discountedSkus x)) in *.
      set (a := Discount.amount (readDiscount discountedSkus x)) in *.
      set (u := Item.unitPrice (readItem stockList x)) in *.
      unfold updateQty.
      destruct (JsMap.get (billMap stockList discountedSkus basket) x)
        as [o|] eqn:G.
      * apply JsMapFacts.get_some_in, entry_billMap in G. subst o.
        unfold lineAmount. cbn [BillItem.qty BillItem.item BillItem.discount].
        fold t a u. set (q := occurrences x basket).
        pose proof (div_succ_step q t Ht) as Hstep.
        replace (1 + q) with (q + 1) by lia. nia.
      * unfold lineAmount. cbn [BillItem.qty BillItem.item BillItem.discount].
        fold t a u. pose proof (div_succ_step 0 t Ht) as Hstep.
        rewrite Z.div_0_l in Hstep by lia.
        replace (1 + 0) with (0 + 1) by lia. nia.
    + rewrite (addItemToBill_unknown _ _ _ _ K). lia.
Qed.

(* ====================================================================== *)
(** ** Binary64 arithmetic below [2^53] *)

Module DoubleFacts.
Import Double.

Lemma pow2_nonpos e : e <= 0 -> pow2 e = 1.
Proof. intros He. unfold pow2. now rewrite Z.max_l by lia. Qed.

Lemma pow2_nonneg e : 0 <= e -> pow2 e = 2 ^ e.
Proof. intros He. unfold pow2. now rewrite Z.max_r by lia. Qed.

Lemma log2_bounds a :
  0 < a < 2 ^ 53 ->
  0 <= Z.log2 a <= 52 /\ 2 ^ Z.log2 a <= a < 2 * 2 ^ Z.log2 a.
Proof.
  intros [Hpos Hlt]. pose proof (Z.log2_nonneg a) as H0.
  pose proof (Z.log2_spec a Hpos) as [Hlo Hhi].
  rewrite Z.pow_succ_r in Hhi by assumption.
  assert (Z.log2 a < 53) by (apply Z.log2_lt_pow2; lia). lia.
Qed.

(** In the range, the exponent is not positive and the scaled quotient has
    [53] bits. *)
Lemma exponent_safe a b :
  0 < a < 2 ^ 53 -> 0 < b < 2 ^ 53 ->
  - 105 <= exponent a b <= 0 /\ 2 ^ 52 * b <= a * 2 ^ (- exponent a b).
Proof.
  intros Ha Hb.
  destruct (log2_bounds a Ha) as [Hla [Ha1 Ha2]].
  destruct (log2_bounds b Hb) as [Hlb [Hb1 Hb2]].
  unfold exponent. set (la := Z.log2 a) in *. set (lb := Z.log2 b) in *.
  set (e0 := la - lb - 52).
  assert (He0 : - 104 <= e0 <= 0) by (unfold e0; lia).
  rewrite (pow2_nonpos e0), (pow2_nonneg (- e0)) by lia.
  assert (Hsplit : 2 ^ (- e0) = 2 ^ (52 - la) * 2 ^ lb).
  { rewrite <- Z.pow_add_r by lia. f_equal. unfold e0. lia. }
  assert (H52 : 2 ^ la * 2 ^ (52 - la) = 2 ^ 52).
  { rewrite <- Z.pow_add_r by lia. f_equal. lia. }
  assert (Hp1 : 0 < 2 ^ (52 - la)) by (apply Z.pow_pos_nonneg; lia).
  assert (Hp2 : 0 < 2 ^ lb) by (apply Z.pow_pos_nonneg; lia).
  destruct (2 ^ 52 * (b * 1) <=? a * 2 ^ (- e0)) eqn:T.
  - apply Z.leb_le in T. rewrite Z.max_r by lia. split; lia.
  - rewrite Z.max_r by lia. split; [lia|].
    replace (- (e0 - 1)) with (Z.succ (- e0)) by lia.
    rewrite Z.pow_succ_r by lia. rewrite Hsplit.
    set (P := 2 ^ (52 - la)) in *. set (Q := 2 ^ lb) in *.
    set (R := 2 ^ la) in *.
    assert (R * P * Q <= a * P * Q) by (apply Z.mul_le_mono_nonneg_r; nia).
    nia.
Qed.

Lemma round_half_even_bounds n d :
  0 < d -> 0 <= n ->
  n / d <= round_half_even n d <= n / d + 1
  /\ (round_half_even n d = n / d + 1 -> d <= 2 * (n mod d)).
Proof.
  intros Hd Hn. unfold round_half_even.
  destruct ((d <? 2 * (n mod d)) || ((d =? 2 * (n mod d)) && Z.odd (n / d)))
    eqn:E.
  - split; [lia|]. intros _.
    apply orb_true_iff in E. destruct E as [E | E].
    + apply Z.ltb_lt in E. lia.
    + apply andb_true_iff in E. destruct E as [E _].
      apply Z.eqb_eq in E. lia.
  - split; lia.
Qed.

(** An integer below [2^53] in magnitude is its own nearest binary64
    value. *)
Lemma round_safe z : Z.abs z < 2 ^ 53 -> round z = Num z.
Proof.
  intros Hz. unfold round, nearest.
  destruct (Z.abs z =? 0) eqn:E0.
  - apply Z.eqb_eq in E0. assert (z = 0) by lia. subst z. reflexivity.
  - apply Z.eqb_neq in E0. set (a := Z.abs z) in *.
    assert (Ha : 0 < a < 2 ^ 53) by (unfold a in *; lia).
    destruct (exponent_safe a 1 Ha) as [[He1 He2] _]; [lia|].
    set (e := exponent a 1) in *.
    rewrite (pow2_nonpos e), (pow2_nonneg (- e)) by lia.
    assert (HS : 0 < 2 ^ (- e)) by (apply Z.pow_pos_nonneg; lia).
    unfold round_half_even.
    rewrite Z.mul_1_l, Z.div_1_r, Z.mod_1_r. simpl orb.
    rewrite Z.mul_1_r, Z.div_mul by lia.
    replace (2 ^ 1024 <=? a) with false
      by (symmetry; apply Z.leb_gt;
          apply Z.lt_trans with (2 ^ 53); [lia | reflexivity]).
    f_equal. unfold a. lia.
Qed.

(** The floor of the binary64 quotient of two integers below [2^53] is the
    floor of their quotient. *)
Lemma floor_div_safe q t :
  0 <= q < 2 ^ 53 -> 1 <= t < 2 ^ 53 -> floor_div q t = Num (q / t).
Proof.
  intros Hq Ht. unfold floor_div, nearest.
  replace (t =? 0) with false by (symmetry; apply Z.eqb_neq; lia).
  rewrite (Z.abs_eq q), (Z.abs_eq t) by lia.
  destruct (q =? 0) eqn:E0.
  - apply Z.eqb_eq in E0. subst q. reflexivity.
  - apply Z.eqb_neq in E0.
    destruct (exponent_safe q t) as [[He1 He2] Hnorm]; [lia | lia |].
    set (e := exponent q t) in *.
    rewrite (pow2_nonpos e), (pow2_nonneg (- e)) by lia.
    set (S := 2 ^ (- e)) in *.
    assert (HS : 0 < S) by (apply Z.pow_pos_nonneg; lia).
    rewrite (Z.sgn_pos q), (Z.sgn_pos t) by lia.
    rewrite !Z.mul_1_l, !Z.mul_1_r.
    destruct (round_half_even_bounds (q * S) t) as [[Hlo Hhi] Hup];
      [lia | nia |].
    set (m := round_half_even (q * S) t) in *.
    set (n := q / t).
    pose proof (Z.div_mod q t ltac:(lia)) as Hdm.
    pose proof (Z.mod_pos_bound q t ltac:(lia)) as Hrho.
    fold n in Hdm. set (rho := q mod t) in *.
    pose proof (Z.div_mod (q * S) t ltac:(lia)) as Hdm'.
    pose proof (Z.mod_pos_bound (q * S) t ltac:(lia)) as Hr'.
    set (m0 := q * S / t) in *. set (r := (q * S) mod t) in *.
    assert (HtS : t < 2 * S) by nia.
    assert (Hm0lo : n * S <= m0).
    { apply Z.div_le_lower_bound; [lia|]. nia. }
    assert (Hm0hi : m0 < (n + 1) * S) by nia.
    assert (Hmhi : m < (n + 1) * S).
    { destruct (Z.eq_dec m (m0 + 1)) as [Hm | Hm]; [|lia].
      specialize (Hup Hm).
      destruct (Z.eq_dec m0 ((n + 1) * S - 1)) as [Hedge | Hedge]; [|lia].
      exfalso. nia. }
    f_equal. symmetry.
    apply (Z.div_unique m S n (m - n * S)); [lia | lia].
Qed.

End DoubleFacts.

(* ====================================================================== *)
(** ** The two readings agree below [2^53] *)

Lemma safeb_spec z : safeb z = true <-> Z.abs z < 2 ^ 53.
Proof. unfold safeb. apply Z.ltb_lt. Qed.

Lemma num_add_agrees a b :
  Z.abs (a + b) < 2 ^ 53 -> Double.add (Num a) (Num b) = num_add (Num a) (Num b).
Proof. intros H. simpl. now apply DoubleFacts.round_safe. Qed.

Lemma num_sub_agrees a b :
  Z.abs (a - b) < 2 ^ 53 -> Double.sub (Num a) (Num b) = num_sub (Num a) (Num b).
Proof. intros H. simpl. now apply DoubleFacts.round_safe. Qed.

Lemma num_mul_agrees a b :
  Z.abs (a * b) < 2 ^ 53 -> Double.mul (Num a) (Num b) = num_mul (Num a) (Num b).
Proof. intros H. simpl. now apply DoubleFacts.round_safe. Qed.

Lemma Math_floor_div_agrees a b :
  0 <= a < 2 ^ 53 -> 1 <= b < 2 ^ 53 ->
  Double.floor_div a b = Math_floor_div a b.
Proof.
  intros Ha Hb. rewrite DoubleFacts.floor_div_safe by assumption.
  unfold Math_floor_div.
  replace (b =? 0) with false by (symmetry; apply Z.eqb_neq; lia).
  reflexivity.
Qed.

Lemma calcDiscount_agrees q t a :
  0 <= q < 2 ^ 53 -> 1 <= t < 2 ^ 53 -> Z.abs (q / t * a) < 2 ^ 53 ->
  Double.calcDiscount q t a = Num (q / t * a)
  /\ calcDiscount q t a = Num (q / t * a).
Proof.
  intros Hq Ht Hd. unfold Double.calcDiscount, calcDiscount.
  rewrite Math_floor_div_agrees by assumption. unfold Math_floor_div.
  replace (t =? 0) with false by (symmetry; apply Z.eqb_neq; lia).
  rewrite num_mul_agrees by assumption. split; reflexivity.
Qed.

Lemma lineSafeb_spec line :
  lineSafeb line = true ->
  let q := BillItem.qty line in
  let u := Item.unitPrice (BillItem.item line) in
  let t := Discount.qty (BillItem.discount line) in
  let a := Discount.amount (BillItem.discount line) in
  0 <= q < 2 ^ 53 /\ 1 <= t < 2 ^ 53 /\ Z.abs u < 2 ^ 53 /\ Z.abs a < 2 ^ 53
  /\ Z.abs (q * u) < 2 ^ 53 /\ Z.abs (q / t * a) < 2 ^ 53
  /\ Z.abs (lineAmount line) < 2 ^ 53.
Proof.
  unfold lineSafeb. intros H.
  repeat (apply andb_true_iff in H; destruct H as [H ?]).
  repeat match goal with
         | Hs : safeb _ = true |- _ => apply safeb_spec in Hs
         | Hl : (_ <=? _) = true |- _ => apply Z.leb_le in Hl
         end.
  cbv zeta. lia.
Qed.

Lemma price_agrees line :
  lineSafeb line = true ->
  Double.price line = Num (lineAmount line)
  /\ BillItem.price line = Num (lineAmount line).
Proof.
  intros H. apply lineSafeb_spec in H. cbv zeta in H.
  destruct H as [Hq [Ht [Hu [Ha [Hqu [Hd Hl]]]]]].
  destruct (calcDiscount_agrees _ _ (Discount.amount (BillItem.discount line))
              Hq Ht Hd) as [E1 E2].
  unfold Double.price, Double.calcPrice, Double.calcAmount,
    BillItem.price, calcPrice, calcAmount.
  rewrite E1, E2, num_mul_agrees by assumption. simpl num_mul.
  rewrite num_sub_agrees by exact Hl. split; reflexivity.
Qed.

Lemma fold_prices_agree lines : forall acc,
  forallb lineSafeb lines = true ->
  Z.abs acc + sumZ (map (fun l => Z.abs (lineAmount l)) lines) < 2 ^ 53 ->
  fold_left (fun acc item => Double.add acc (Double.price item)) lines (Num acc)
  = Num (acc + sumZ (map lineAmount lines))
  /\ fold_left (fun acc item => num_add acc (BillItem.price item)) lines (Num acc)
     = Num (acc + sumZ (map lineAmount lines)).
Proof.
  induction lines as [|l rest IH]; intros acc Hall Hsum.
  - simpl. unfold sumZ. simpl. rewrite Z.add_0_r. split; reflexivity.
  - simpl in Hall. apply andb_true_iff in Hall. destruct Hall as [Hl Hrest].
    destruct (price_agrees l Hl) as [E1 E2].
    unfold sumZ in *. cbn [fold_left map fold_right] in Hsum |- *.
    assert (Hnn : 0 <= fold_right Z.add 0
                         (map (fun l => Z.abs (lineAmount l)) rest)).
    { apply (sumZ_nonneg (map (fun l => Z.abs (lineAmount l)) rest)).
      apply Forall_map, Forall_forall. intros x _. lia. }
    rewrite E1, E2, num_add_agrees by lia. simpl num_add.
    destruct (IH (acc + lineAmount l) Hrest ltac:(lia)) as [I1 I2].
    rewrite I1, I2. split; f_equal; lia.
Qed.

Lemma sumPrices_agrees lines :
  billSafeb lines = true ->
  Double.sumPrices lines = Num (sumZ (map lineAmount lines))
  /\ sumPrices lines = Num (sumZ (map lineAmount lines)).
Proof.
  unfold billSafeb. intros H. apply andb_true_iff in H.
  destruct H as [Hall Hsum]. apply safeb_spec in Hsum.
  assert (Hnn : 0 <= sumZ (map (fun l => Z.abs (lineAmount l)) lines)).
  { apply sumZ_nonneg, Forall_map, Forall_forall. intros x _. lia. }
  destruct (fold_prices_agree lines 0 Hall ltac:(lia)) as [E1 E2].
  unfold Double.sumPrices, sumPrices. rewrite E1, E2. split; reflexivity.
Qed.

Lemma total_agrees stockList discountedSkus basket :
  billSafeb (billArray stockList discountedSkus basket) = true ->
  Double.total stockList discountedSkus basket
  = total stockList discountedSkus basket.
Proof.
  intros H. unfold Double.total, total.
  destruct (sumPrices_agrees _ H) as [E1 E2]. now rewrite E1, E2.
Qed.

Lemma sum_abs_bound (f : BillItem.t -> Z) lines :
  Z.abs (sumZ (map f lines)) <= sumZ (map (fun l => Z.abs (f l)) lines).
Proof.
  unfold sumZ. induction lines as [|l rest IH]; simpl; lia.
Qed.

Lemma billSafeb_perm lines lines' :
  Permutation lines lines' -> billSafeb lines = true -> billSafeb lines' = true.
Proof.
  unfold billSafeb. intros Hp H. apply andb_true_iff in H.
  destruct H as [Hall Hsum]. apply andb_true_iff. split.
  - rewrite forallb_forall in *. intros x Hx. apply Hall.
    now apply (Permutation_in x (Permutation_sym Hp)).
  - rewrite <- (sumZ_perm _ _ (Permutation_map _ Hp)). exact Hsum.
Qed.

Lemma billSafeb_app l1 l2 :
  billSafeb (l1 ++ l2) = true -> billSafeb l1 = true /\ billSafeb l2 = true.
Proof.
  unfold billSafeb. intros H. apply andb_true_iff in H.
  destruct H as [Hall Hsum]. rewrite forallb_app in Hall.
  apply andb_true_iff in Hall. destruct Hall as [H1 H2].
  apply safeb_spec in Hsum. rewrite map_app, sumZ_app in Hsum.
  assert (Hn1 : 0 <= sumZ (map (fun l => Z.abs (lineAmount l)) l1)).
  { apply sumZ_nonneg, Forall_map, Forall_forall. intros x _. lia. }
  assert (Hn2 : 0 <= sumZ (map (fun l => Z.abs (lineAmount l)) l2)).
  { apply sumZ_nonneg, Forall_map, Forall_forall. intros x _. lia. }
  split; apply andb_true_iff; (split; [assumption|]); apply safeb_spec; lia.
Qed.

(* ====================================================================== *)
(** ** Pricing on binary64 numbers *)

(** C3.  For all integers [0 <= q < 2^53], [0 <= a < 2^53] and
    [1 <= t < 2^53] with [(q / t) * a < 2^53]: [calcDiscount q t a] is
    [n * a] where [n = q / t] is the floor of the quotient, that is the
    integer with [n * t <= q < (n + 1) * t]; and it is [0] when [q < t]. *)
Theorem calcDiscount_whole_multiples_in_range (q t a : Z) :
  0 <= q < 2 ^ 53 -> 0 <= a < 2 ^ 53 -> 1 <= t < 2 ^ 53 ->
  q / t * a < 2 ^ 53 ->
  Double.calcDiscount q t a = Num (q / t * a)
  /\ q / t * t <= q < (q / t + 1) * t
  /\ (q < t -> Double.calcDiscount q t a = Num 0).
Proof.
  intros Hq Ha Ht Hd.
  assert (Hn : 0 <= q / t) by (apply Z.div_pos; lia).
  assert (E : Double.calcDiscount q t a = Num (q / t * a)).
  { apply calcDiscount_agrees; [assumption | assumption |].
    rewrite Z.abs_eq by nia. assumption. }
  split; [exact E | split].
  - pose proof (Z.div_mod q t ltac:(lia)) as Hdm.
    pose proof (Z.mod_pos_bound q t ltac:(lia)) as Hb. nia.
  - intros Hlt. rewrite E, Z.div_small by lia. reflexivity.
Qed.

Lemma calcDiscount_whole_multiples_in_range_witness :
  Double.calcDiscount 7 3 50 = Num 100 /\ Double.calcDiscount 2 3 50 = Num 0.
Proof.
  split.
  - refine (proj1 (calcDiscount_whole_multiples_in_range 7 3 50 _ _ _ _));
      vm_compute; repeat split; discriminate.
  - refine (proj2 (proj2 (calcDiscount_whole_multiples_in_range 2 3 50
                            _ _ _ _)) _);
      vm_compute; repeat split; discriminate.
Defined.

(** Beyond the range the product is rounded: for [q = 2^53 - 1], [t = 1] and
    [a = 3] the discount is [27021597764222972], not
    [(q / t) * a = 27021597764222973]. *)
Lemma calcDiscount_rounds_beyond_range :
  0 <= 9007199254740991 /\ 0 <= 3 /\ 1 <= 1
  /\ Double.calcDiscount 9007199254740991 1 3 = Num 27021597764222972
  /\ Double.calcDiscount 9007199254740991 1 3
     <> Num (9007199254740991 / 1 * 3).
Proof.
  repeat split; try (vm_compute; discriminate).
Qed.

(** C5.  For every bill line with quantity [q], unit price [u] and discount
    rule [(t, a)] whose fields and intermediate results are below [2^53] in
    magnitude, with [0 <= q] and [1 <= t]: the price of the line is
    [q * u - (q / t) * a], whatever its sign; and after the quantity of the
    line is changed to [q'], within the same range, the price is that
    formula at [q']. *)
Theorem price_from_current_fields_in_range (q u t a q' : Z) (d : string) :
  let line := BillItem.new q (Item.new d u) (Discount.new t a) in
  lineSafeb line = true ->
  lineSafeb (BillItem.with_qty line q') = true ->
  Double.price line = Num (q * u - q / t * a)
  /\ Double.price (BillItem.with_qty line q') = Num (q' * u - q' / t * a).
Proof.
  intros line H H'. split.
  - exact (proj1 (price_agrees line H)).
  - exact (proj1 (price_agrees _ H')).
Qed.

Lemma price_from_current_fields_in_range_witness :
  Double.price (BillItem.new 3 (Item.new "Mango" 75) (Discount.new 2 250))
  = Num (-25)
  /\ Double.price
       (BillItem.with_qty
          (BillItem.new 3 (Item.new "Mango" 75) (Discount.new 2 250)) 1)
     = Num 75.
Proof.
  apply (price_from_current_fields_in_range 3 75 2 250 1 "Mango");
    reflexivity.
Defined.

(** Beyond the range the price is rounded: five units at
    [8730856890972550] with the rule [(1, 8730856890972549)] cost [8], not
    [q * u - (q / t) * a = 5]. *)
Lemma price_rounds_beyond_range :
  Double.price (BillItem.new 5 (Item.new "Gold" 8730856890972550)
                             (Discount.new 1 8730856890972549))
  = Num 8
  /\ 5 * 8730856890972550 - 5 / 1 * 8730856890972549 = 5
  /\ Double.price (BillItem.new 5 (Item.new "Gold" 8730856890972550)
                                (Discount.new 1 8730856890972549))
     <> Num (5 * 8730856890972550 - 5 / 1 * 8730856890972549).
Proof.
  repeat split; try (vm_compute; discriminate).
Qed.

(** C4.  For every bill whose lines are in the range of [lineSafeb] and
    whose line amounts have magnitudes that add up to less than [2^53]:
    every line has the price [qty * unitPrice - (qty / threshold) * amount],
    the total that [displayScreen] computes over the values of the bill is
    the sum of these prices, and the fold of the same lines in any other
    order gives the same total. *)
Theorem total_is_sum_of_line_prices_in_range (bill : JsMap.t BillItem.t) :
  billSafeb (JsMap.values bill) = true ->
  Double.sumPrices (JsMap.values bill)
  = Num (sumZ (map lineAmount (JsMap.values bill)))
  /\ (forall line, In line (JsMap.values bill) ->
                   Double.price line = Num (lineAmount line))
  /\ (forall lines,
        Permutation (JsMap.values bill) lines ->
        Double.sumPrices lines = Double.sumPrices (JsMap.values bill)).
Proof.
  intros Hsafe. split; [|split].
  - exact (proj1 (sumPrices_agrees _ Hsafe)).
  - intros line Hin. apply price_agrees.
    unfold billSafeb in Hsafe. apply andb_true_iff in Hsafe.
    destruct Hsafe as [Hall _]. rewrite forallb_forall in Hall.
    now apply Hall.
  - intros lines Hp.
    rewrite (proj1 (sumPrices_agrees _ Hsafe)).
    rewrite (proj1 (sumPrices_agrees _ (billSafeb_perm _ _ Hp Hsafe))).
    f_equal. apply sumZ_perm, Permutation_map, Permutation_sym, Hp.
Qed.

Lemma total_is_sum_of_line_prices_in_range_witness :
  Double.total Shop.stockList Shop.discountedSkus Shop.basket = Num 5397
  /\ Double.sumPrices (rev (Shop.billArray Shop.basket)) = Num 5397.
Proof.
  destruct (total_is_sum_of_line_prices_in_range (Shop.billMap Shop.basket))
    as [Hsum [_ Hperm]]; [reflexivity|].
  split.
  - exact Hsum.
  - exact (eq_trans (Hperm _ (Permutation_rev _)) Hsum).
Defined.

(** Beyond the range the total depends on the order of the lines: with the
    prices [2^53], [1] and [1], the basket [[1; 2; 3]] totals [2^53] and the
    basket [[2; 3; 1]] totals [2^53 + 2], which is the sum of the three
    prices. *)
Lemma total_depends_on_order_beyond_range :
  map Double.price
      (billArray [(1, Item.new "A" 9007199254740992); (2, Item.new "B" 1);
                  (3, Item.new "C" 1)] [] [1; 2; 3])
  = [Num 9007199254740992; Num 1; Num 1]
  /\ Permutation
       (billArray [(1, Item.new "A" 9007199254740992); (2, Item.new "B" 1);
                   (3, Item.new "C" 1)] [] [1; 2; 3])
       (billArray [(1, Item.new "A" 9007199254740992); (2, Item.new "B" 1);
                   (3, Item.new "C" 1)] [] [2; 3; 1])
  /\ Double.total [(1, Item.new "A" 9007199254740992); (2, Item.new "B" 1);
                   (3, Item.new "C" 1)] [] [1; 2; 3]
     = Num 9007199254740992
  /\ Double.total [(1, Item.new "A" 9007199254740992); (2, Item.new "B" 1);
                   (3, Item.new "C" 1)] [] [2; 3; 1]
     = Num 9007199254740994
  /\ Double.total [(1, Item.new "A" 9007199254740992); (2, Item.new "B" 1);
                   (3, Item.new "C" 1)] [] [1; 2; 3]
     <> Num (9007199254740992 + 1 + 1).
Proof.
  split; [reflexivity | split; [|split; [reflexivity|split]]].
  - vm_compute. apply Permutation_cons_append.
  - reflexivity.
  - vm_compute. discriminate.
Qed.

(* ====================================================================== *)
(** ** Totals on binary64 numbers *)

(** X5.  When every rule of the discount table has a threshold of at least
    [1] and an amount that is not negative, and the bill of the basket is in
    the range of [billSafeb], the total of the basket is the sum of the unit
    prices of its occurrences that pass the test of [addItemToBill], minus
    the discounts of the lines, and these discounts are not negative. *)
Theorem total_is_list_price_minus_discounts_in_range
    (stockList : JsMap.t Item.t) (discountedSkus : JsMap.t Discount.t)
    (basket : list Z) :
  Forall (fun d => 1 <= Discount.qty d /\ 0 <= Discount.amount d)
         (JsMap.values discountedSkus) ->
  billSafeb (billArray stockList discountedSkus basket) = true ->
  Double.total stockList discountedSkus basket
  = Num (listPrice stockList basket
         - sumZ (map lineDiscount (billArray stockList discountedSkus basket)))
  /\ 0 <= sumZ (map lineDiscount (billArray stockList discountedSkus basket)).
Proof.
  intros Hall Hsafe. rewrite (total_agrees _ _ _ Hsafe).
  now apply total_is_list_price_minus_discounts_unrounded.
Qed.

Lemma total_is_list_price_minus_discounts_in_range_witness :
  Double.total Shop.stockList Shop.discountedSkus Shop.basket
  = Num (5822 - 425).
Proof.
  refine (proj1 (total_is_list_price_minus_discounts_in_range
                   Shop.stockList Shop.discountedSkus Shop.basket _ _)).
  - vm_compute. repeat constructor; discriminate.
  - reflexivity.
Defined.

(** X6.  A basket none of whose SKUs has an entry in the discount table, and
    whose bill is in the range of [billSafeb], costs the sum of the unit
    prices of its occurrences that pass the test of [addItemToBill]. *)
Theorem basket_without_discount_costs_list_price_in_range
    (stockList : JsMap.t Item.t) (discountedSkus : JsMap.t Discount.t)
    (basket : list Z) :
  (forall s, In s basket -> JsMap.has discountedSkus s = false) ->
  billSafeb (billArray stockList discountedSkus basket) = true ->
  Double.total stockList discountedSkus basket
  = Num (listPrice stockList basket).
Proof.
  intros Hno Hsafe. rewrite (total_agrees _ _ _ Hsafe).
  now apply basket_without_discount_costs_list_price_unrounded.
Qed.

Lemma basket_without_discount_costs_list_price_in_range_witness :
  Double.total Shop.stockList Shop.discountedSkus [670; 3317; 670; 9999]
  = Num (194 + 150 + 194).
Proof.
  apply (basket_without_discount_costs_list_price_in_range
           Shop.stockList Shop.discountedSkus [670; 3317; 670; 9999]).
  - simpl. intros s [<- | [<- | [<- | [<- | []]]]]; reflexivity.
  - reflexivity.
Defined.

(** X8.  For two baskets that share no SKU and whose joint bill is in the
    range of [billSafeb], the bill of their concatenation is the bill of the
    first followed by the bill of the second, and its total is the sum of
    the two totals. *)
Theorem disjoint_baskets_add_up_in_range
    (stockList : JsMap.t Item.t) (discountedSkus : JsMap.t Discount.t)
    (basket1 basket2 : list Z) :
  (forall s, In s basket1 -> ~ In s basket2) ->
  billSafeb (billArray stockList discountedSkus (basket1 ++ basket2)) = true ->
  billMap stockList discountedSkus (basket1 ++ basket2)
  = billMap stockList discountedSkus basket1
    ++ billMap stockList discountedSkus basket2
  /\ Double.total stockList discountedSkus (basket1 ++ basket2)
     = Double.add (Double.total stockList discountedSkus basket1)
                  (Double.total stockList discountedSkus basket2).
Proof.
  intros Hdis Hsafe.
  destruct (disjoint_baskets_add_up_unrounded stockList discountedSkus basket1 basket2
              Hdis) as [Hbill _].
  split; [exact Hbill|].
  assert (Hlines : billArray stockList discountedSkus (basket1 ++ basket2)
                   = billArray stockList discountedSkus basket1
                     ++ billArray stockList discountedSkus basket2).
  { unfold billArray, JsMap.values. now rewrite Hbill, map_app. }
  destruct (billSafeb_app _ _ (eq_ind _ (fun l => billSafeb l = true)
                                 Hsafe _ Hlines)) as [H1 H2].
  unfold Double.total.
  rewrite (proj1 (sumPrices_agrees _ Hsafe)),
          (proj1 (sumPrices_agrees _ H1)), (proj1 (sumPrices_agrees _ H2)).
  rewrite Hlines, map_app, sumZ_app. symmetry.
  apply (num_add_agrees
           (sumZ (map lineAmount (billArray stockList discountedSkus basket1)))
           (sumZ (map lineAmount (billArray stockList discountedSkus basket2)))).
  rewrite <- sumZ_app, <- map_app, <- Hlines.
  unfold billSafeb in Hsafe. apply andb_true_iff in Hsafe.
  destruct Hsafe as [_ Hsum]. apply safeb_spec in Hsum.
  pose proof (sum_abs_bound lineAmount
                (billArray stockList discountedSkus (basket1 ++ basket2))).
  assert (0 <= sumZ (map (fun l => Z.abs (lineAmount l))
                         (billArray stockList discountedSkus
                                    (basket1 ++ basket2)))).
  { apply sumZ_nonneg, Forall_map, Forall_forall. intros x _. lia. }
  lia.
Qed.

Lemma disjoint_baskets_add_up_in_range_witness :
  Double.total Shop.stockList Shop.discountedSkus
               ([1234; 670; 1234] ++ [7102; 3317])
  = Double.add (Double.total Shop.stockList Shop.discountedSkus
                             [1234; 670; 1234])
               (Double.total Shop.stockList Shop.discountedSkus [7102; 3317]).
Proof.
  refine (proj2 (disjoint_baskets_add_up_in_range
                   Shop.stockList Shop.discountedSkus
                   [1234; 670; 1234] [7102; 3317] _ _)).
  - simpl. intros s [<- | [<- | [<- | []]]] [H | [H | []]]; discriminate H.
  - reflexivity.
Defined.

(** X10.  For a threshold [t >= 1], an amount [0 <= a < 2^53] and quantities
    [0 <= q <= q'] with [q' + t < 2^53] and [((q' + t) / t) * a < 2^53]:
    [t] more units earn the amount once more; the discount for [q] is at
    most the discount for [q']; and the discount for [q] is between [0] and
    the share [q * a / t] of the quantity. *)
Theorem calcDiscount_steps_in_range (q q' t a : Z) :
  1 <= t -> 0 <= a < 2 ^ 53 -> 0 <= q <= q' -> q' + t < 2 ^ 53 ->
  (q' + t) / t * a < 2 ^ 53 ->
  Double.calcDiscount (q + t) t a
  = Double.add (Double.calcDiscount q t a) (Num a)
  /\ exists d d',
       Double.calcDiscount q t a = Num d /\ Double.calcDiscount q' t a = Num d'
       /\ d <= d' /\ 0 <= d /\ d * t <= q * a.
Proof.
  intros Ht Ha Hq Hb Hd.
  assert (Hmono : forall x y, 0 <= x <= y -> 0 <= x / t * a <= y / t * a).
  { intros x y Hxy. split.
    - apply Z.mul_nonneg_nonneg; [apply Z.div_pos; lia | lia].
    - apply Z.mul_le_mono_nonneg_r; [lia|]. apply Z.div_le_mono; lia. }
  assert (Hin : forall x, 0 <= x <= q' + t ->
                          Double.calcDiscount x t a = Num (x / t * a)).
  { intros x Hx. apply calcDiscount_agrees; [lia | lia |].
    pose proof (Hmono x (q' + t) Hx). rewrite Z.abs_eq by lia. lia. }
  pose proof (Hmono q q' ltac:(lia)) as M1.
  pose proof (Hmono (q + t) (q' + t) ltac:(lia)) as M2.
  assert (Estep : (q + t) / t * a = q / t * a + a).
  { replace (q + t) with (q + 1 * t) by lia. rewrite Z.div_add by lia. lia. }
  split.
  - rewrite !Hin by lia. rewrite num_add_agrees.
    + simpl. f_equal. exact Estep.
    + rewrite Z.abs_eq by lia. lia.
  - exists (q / t * a), (q' / t * a). rewrite !Hin by lia.
    repeat split; try lia.
    pose proof (Z.mul_div_le q t ltac:(lia)). nia.
Qed.

Lemma calcDiscount_steps_in_range_witness :
  Double.calcDiscount (4 + 3) 3 50
  = Double.add (Double.calcDiscount 4 3 50) (Num 50)
  /\ exists d d',
       Double.calcDiscount 4 3 50 = Num d /\ Double.calcDiscount 5 3 50 = Num d'
       /\ d <= d' /\ 0 <= d /\ d * 3 <= 4 * 50.
Proof.
  apply (calcDiscount_steps_in_range 4 5 3 50);
    vm_compute; repeat split; discriminate.
Defined.

(** X16.  When every rule of the discount table has a threshold of at least
    [1] and an amount that is not negative, and the bills of two baskets and
    of their concatenation are in the range of [billSafeb], the three totals
    are integers and the total of the two baskets put together is at most
    the sum of their totals. *)
Theorem merged_baskets_cost_no_more_in_range
    (stockList : JsMap.t Item.t) (discountedSkus : JsMap.t Discount.t)
    (basket1 basket2 : list Z) :
  Forall (fun d => 1 <= Discount.qty d /\ 0 <= Discount.amount d)
         (JsMap.values discountedSkus) ->
  billSafeb (billArray stockList discountedSkus basket1) = true ->
  billSafeb (billArray stockList discountedSkus basket2) = true ->
  billSafeb (billArray stockList discountedSkus (basket1 ++ basket2)) = true ->
  exists z1 z2 z,
    Double.total stockList discountedSkus basket1 = Num z1
    /\ Double.total stockList discountedSkus basket2 = Num z2
    /\ Double.total stockList discountedSkus (basket1 ++ basket2) = Num z
    /\ z <= z1 + z2.
Proof.
  intros Hall H1 H2 H12.
  rewrite (total_agrees _ _ _ H1), (total_agrees _ _ _ H2),
          (total_agrees _ _ _ H12).
  now apply merged_baskets_cost_no_more_unrounded.
Qed.

Lemma merged_baskets_cost_no_more_in_range_witness :
  exists z1 z2 z,
    Double.total Shop.stockList Shop.discountedSkus [1234; 670] = Num z1
    /\ Double.total Shop.stockList Shop.discountedSkus [1234] = Num z2
    /\ Double.total Shop.stockList Shop.discountedSkus ([1234; 670] ++ [1234])
       = Num z
    /\ z <= z1 + z2.
Proof.
  apply (merged_baskets_cost_no_more_in_range
           Shop.stockList Shop.discountedSkus [1234; 670] [1234]).
  - vm_compute. repeat constructor; discriminate.
  - reflexivity.
  - reflexivity.
  - reflexivity.
Defined.

(** X17.  When, for every SKU, the rule that [readDiscount] returns has a
    threshold of at least [1] and an amount between [0] and the unit price
    of the item that [readItem] returns, and the bills of a basket and of
    the basket with one more occurrence at its end are in the range of
    [billSafeb], the occurrence does not lower the total. *)
Theorem one_more_occurrence_costs_no_less_in_range
    (stockList : JsMap.t Item.t) (discountedSkus : JsMap.t Discount.t)
    (basket : list Z) (x : Z) :
  (forall s,
     1 <= Discount.qty (readDiscount discountedSkus s)
     /\ 0 <= Discount.amount (readDiscount discountedSkus s)
          <= Item.unitPrice (readItem stockList s)) ->
  billSafeb (billArray stockList discountedSkus basket) = true ->
  billSafeb (billArray stockList discountedSkus (basket ++ [x])) = true ->
  exists z z',
    Double.total stockList discountedSkus basket = Num z
    /\ Double.total stockList discountedSkus (basket ++ [x]) = Num z'
    /\ z <= z'.
Proof.
  intros Hrule H1 H2.
  rewrite (total_agrees _ _ _ H1), (total_agrees _ _ _ H2).
  now apply one_more_occurrence_costs_no_less_unrounded.
Qed.

Lemma one_more_occurrence_costs_no_less_in_range_witness :
  exists z z',
    Double.total [(670, Item.new "Apples" 194)] [(670, Discount.new 2 100)]
                 [670]
    = Num z
    /\ Double.total [(670, Item.new "Apples" 194)] [(670, Discount.new 2 100)]
                    ([670] ++ [670])
       = Num z'
    /\ z <= z'.
Proof.
  apply (one_more_occurrence_costs_no_less_in_range
           [(670, Item.new "Apples" 194)] [(670, Discount.new 2 100)]
           [670] 670).
  - intros s. unfold readDiscount, readItem, genericMapGet. cbn [JsMap.get].
    destruct (670 =? s); vm_compute; repeat split; discriminate.
  - reflexivity.
  - reflexivity.
Defined.
